(** * statcont: continuum estimators over a windowed flux histogram

    A shallow embedding of [statcont/cont_finding.py].

    Conventions of the embedding.
    - A NumPy float is an exact rational ([Q]): [cont_histo] and the
      estimators compute without the rounding of IEEE doubles.  A
      statement that needs the absence of rounding carries it as a
      hypothesis on the values the run computes (the bin count of line
      275, three bins or more selected at line 298, bin centres that do
      not coincide), so that it reads the same on a run in double
      precision.  Module [Doubles] evaluates lines 275-305 with every
      operation rounded to binary64, for the inputs on which rounding
      changes the path that [cont_histo] takes.  Where the source can
      produce NaN (an empty reduction, [0.0/0.0]) the value is an
      [option Q] with [None] for NaN, and a comparison against NaN is
      [false] as in NumPy.
    - A Python exception is the [Raise] case of [result]; the functions
      are written in the error monad, one bind per source statement that
      can raise.
    - An index is a [Z] (NumPy [int64], Python [int]): negative indices
      wrap around as they do in Python.
    - The NumPy, SciPy and Astropy primitives are not part of the
      repository.  [np.histogram], [np.percentile], [np.median],
      [np.mean], [np.where], [np.amax], [np.amin] are written out from
      their documented behaviour, in exact arithmetic; [np.std],
      [sigma_clip] and [leastsq] stay abstract, as the fields of the
      class [Primitives], and [c_Gaussian] records the calls it makes
      of [leastsq]. *)

From Stdlib Require Import List ZArith QArith Qround Qminmax Qabs Lia Lqa Bool Arith Sorted.
Import ListNotations.
Open Scope Q_scope.

(** ** Python exceptions and the error monad *)

(** The first four are the exceptions the source can raise (through
    Python and NumPy); the last five are the error kinds that the
    specification names, which no statement of the source raises. *)
Inductive exn : Type :=
| ValueError
| IndexError
| OverflowError
| UnboundLocalError
| InvalidNoiseError
| EmptyFluxError
| DegenerateWindowError
| InvalidPercentileError
| FitDidNotConvergeError.

Inductive result (A : Type) : Type :=
| Ok (a : A)
| Raise (e : exn).

Arguments Ok {A} a.
Arguments Raise {A} e.

Definition bind {A B : Type} (r : result A) (k : A -> result B) : result B :=
  match r with
  | Ok a => k a
  | Raise e => Raise e
  end.

Notation "x <- e ;; k" := (bind e (fun x => k))
  (at level 61, e at next level, right associativity).

Definition returns {A : Type} (r : result A) : Prop := exists a, r = Ok a.

Definition exn_eqb (a b : exn) : bool :=
  match a, b with
  | ValueError, ValueError | IndexError, IndexError
  | OverflowError, OverflowError | UnboundLocalError, UnboundLocalError
  | InvalidNoiseError, InvalidNoiseError | EmptyFluxError, EmptyFluxError
  | DegenerateWindowError, DegenerateWindowError
  | InvalidPercentileError, InvalidPercentileError
  | FitDidNotConvergeError, FitDidNotConvergeError => true
  | _, _ => false
  end.

(** ** Python sequences *)

Module Py.

(** [l[i]] on a list or a one-dimensional array. *)
Definition getitem {A : Type} (l : list A) (i : Z) : result A :=
  let n := Z.of_nat (length l) in
  let j := if (i <? 0)%Z then (i + n)%Z else i in
  if ((j <? 0)%Z || (n <=? j)%Z)%bool then Raise IndexError
  else match nth_error l (Z.to_nat j) with
       | Some a => Ok a
       | None => Raise IndexError
       end.

(** [l[start:stop]]: negative bounds wrap once, then both are clamped. *)
Definition slice {A : Type} (l : list A) (start stop : Z) : list A :=
  let n := Z.of_nat (length l) in
  let clamp i :=
    let j := if (i <? 0)%Z then (i + n)%Z else i in
    Z.max 0 (Z.min n j) in
  let a := clamp start in
  let b := clamp stop in
  firstn (Z.to_nat (b - a)) (skipn (Z.to_nat a) l).

Definition len {A : Type} (l : list A) : Z := Z.of_nat (length l).

(** [int(x)] on a finite float: truncation towards zero. *)
Definition int (q : Q) : Z := Z.quot (Qnum q) (Zpos (Qden q)).

End Py.

(** ** NumPy primitives, in exact arithmetic *)

Module Np.

(** [np.amax(a)], [np.amin(a)]: a reduction of an empty array raises. *)
Definition amax (a : list Q) : result Q :=
  match a with
  | [] => Raise ValueError
  | x :: t => Ok (fold_left Qmax t x)
  end.

Definition amin (a : list Q) : result Q :=
  match a with
  | [] => Raise ValueError
  | x :: t => Ok (fold_left Qmin t x)
  end.

(** [np.where(mask)[0]]: the indices of the true entries, ascending. *)
Fixpoint where_from (i : Z) (mask : list bool) : list Z :=
  match mask with
  | [] => []
  | b :: t => if b then i :: where_from (i + 1) t else where_from (i + 1) t
  end.

Definition where_ (mask : list bool) : list Z := where_from 0 mask.

(** [idx.max()], [idx.min()] on an index array. *)
Definition imax (idx : list Z) : result Z :=
  match idx with
  | [] => Raise ValueError
  | x :: t => Ok (fold_left Z.max t x)
  end.

Definition imin (idx : list Z) : result Z :=
  match idx with
  | [] => Raise ValueError
  | x :: t => Ok (fold_left Z.min t x)
  end.

(** [hist.max()] on a count array. *)
Definition cmax (h : list nat) : nat := fold_right Nat.max 0%nat h.

(** [np.linspace(start, stop, n + 1)]. *)
Definition linspace (start stop : Q) (n : nat) : list Q :=
  map (fun i : nat => start + inject_Z (Z.of_nat i) * ((stop - start) / inject_Z (Z.of_nat n)))
      (seq 0 (S n)).

(** The bin of [x] among [n] equal bins on [[mn, mx]]: bin [i] is
    [[edge i, edge (i+1))], the last one also holds [mx]. *)
Definition bin_index (mn mx : Q) (n : nat) (x : Q) : Z :=
  let i := Qfloor ((x - mn) * inject_Z (Z.of_nat n) / (mx - mn)) in
  if (i =? Z.of_nat n)%Z then (i - 1)%Z else i.

Definition count_bin (mn mx : Q) (n : nat) (a : list Q) (i : nat) : nat :=
  length (filter (fun x => (bin_index mn mx n x =? Z.of_nat i)%Z) a).

(** The range [np.histogram] bins over: the extrema of the data, [(0, 1)]
    for no data, widened by a half on each side when they coincide. *)
Definition outer_edges (a : list Q) : Q * Q :=
  let '(mn, mx) :=
    match a with
    | [] => (0, 1)
    | x :: t => (fold_left Qmin t x, fold_left Qmax t x)
    end in
  if Qeq_bool mn mx then (mn - (1 # 2), mx + (1 # 2)) else (mn, mx).

(** [np.histogram(a, bins)] with an integer [bins]: counts and edges. *)
Definition histogram (a : list Q) (bins : Z) : result (list nat * list Q) :=
  if (bins <? 1)%Z then Raise ValueError
  else
    let n := Z.to_nat bins in
    let '(mn, mx) := outer_edges a in
    Ok (map (count_bin mn mx n a) (seq 0 n), linspace mn mx n).

(** A float division whose result goes to [int()]: NumPy gives NaN for
    [0/0] and an infinity for [x/0], which [int] refuses. *)
Definition divide_to_int (a b : Q) : result Z :=
  if Qeq_bool b 0 then
    if Qeq_bool a 0 then Raise ValueError else Raise OverflowError
  else Ok (Py.int (a / b)).

End Np.

(** Lines 28 and 279-280: [np.where(h == h.max())[0][0]]. *)
Definition first_max_index (h : list nat) : result Z :=
  Py.getitem (Np.where_ (map (fun c => Nat.eqb c (Np.cmax h)) h)) 0.

(** ** The windowed histogram builder, [cont_histo] *)

Module ContHisto.

(** Lines 275-281: the histogram of the whole array and its peak. *)
Record peak_histo : Type := {
  number_bins : Z;
  all_hist : list nat;
  all_bin_edges : list Q;
  all_bins : list Q;
  all_number_max : Z;
  all_bins_max : Q
}.

(** [(all_bins[1]-all_bins[0])]. *)
Definition bin_width (bins : list Q) : result Q :=
  b1 <- Py.getitem bins 1 ;;
  b0 <- Py.getitem bins 0 ;;
  Ok (b1 - b0).

(** Line 278: [[x + (all_bins[1]-all_bins[0])/2. for x in all_bins]];
    the body is evaluated (and can raise) only when there is an [x]. *)
Definition bin_centres (left_edges : list Q) : result (list Q) :=
  match left_edges with
  | [] => Ok []
  | _ => w <- bin_width left_edges ;;
         Ok (map (fun x => x + w / 2) left_edges)
  end.

(** Line 275: [int((np.amax(flux)-np.amin(flux))/(2*rms_noise))]. *)
Definition bin_count (flux : list Q) (rms_noise : Q) : result Z :=
  mx <- Np.amax flux ;;
  mn <- Np.amin flux ;;
  Np.divide_to_int (mx - mn) (2 * rms_noise).

(** Lines 275-281.  Line 281 adds to the left edge of the peak bin half
    of [all_bins[1]-all_bins[0]], where [all_bins] now holds the
    centres of line 278. *)
Definition build_histogram (flux : list Q) (rms_noise : Q) : result peak_histo :=
  number_bins <- bin_count flux rms_noise ;;
  hb <- Np.histogram flux number_bins ;;
  let all_hist := fst hb in
  let all_bin_edges := snd hb in
  let left_edges := Py.slice all_bin_edges 0 (Py.len all_bin_edges - 1) in
  all_bins <- bin_centres left_edges ;;
  all_number_max <- first_max_index all_hist ;;
  e <- Py.getitem all_bin_edges all_number_max ;;
  w <- bin_width all_bins ;;
  Ok {| number_bins := number_bins;
        all_hist := all_hist;
        all_bin_edges := all_bin_edges;
        all_bins := all_bins;
        all_number_max := all_number_max;
        all_bins_max := e + w / 2 |}.

(** Lines 285-288: the zero-count bins that enclose the peak, and the
    share of the right-hand side in their distance to the peak. *)
Record asymmetry : Type := {
  all_number_left : Z;
  all_number_right : Z;
  all_number_total : Z;
  emission_absorption_ratio : option Q
}.

(** [abs(a)*1.0/(t*1.0)] on NumPy scalars: [0.0/0.0] is NaN. *)
Definition np_ratio (a t : Z) : option Q :=
  if (t =? 0)%Z then None else Some (inject_Z a / inject_Z t).

Definition left_mask (h : peak_histo) (b0 : Q) : list bool :=
  map (fun cb : nat * Q =>
         ((Nat.eqb (fst cb) 0) && Qle_bool (snd cb) (all_bins_max h)) || Qeq_bool (snd cb) b0)%bool
      (combine (all_hist h) (all_bins h)).

Definition right_mask (h : peak_histo) (bl : Q) : list bool :=
  map (fun cb : nat * Q =>
         ((Nat.eqb (fst cb) 0) && Qle_bool (all_bins_max h) (snd cb)) || Qeq_bool (snd cb) bl)%bool
      (combine (all_hist h) (all_bins h)).

Definition measure_asymmetry (h : peak_histo) : result asymmetry :=
  b0 <- Py.getitem (all_bins h) 0 ;;
  all_number_left <- Np.imax (Np.where_ (left_mask h b0)) ;;
  bl <- Py.getitem (all_bins h) (number_bins h - 1) ;;
  all_number_right <- Np.imin (Np.where_ (right_mask h bl)) ;;
  let all_number_total :=
    (Z.abs (all_number_right - all_number_max h)
     + Z.abs (all_number_left - all_number_max h))%Z in
  Ok {| all_number_left := all_number_left;
        all_number_right := all_number_right;
        all_number_total := all_number_total;
        emission_absorption_ratio :=
          np_ratio (Z.abs (all_number_right - all_number_max h)) all_number_total |}.

(** Lines 289-297: three independent [if]s assign the two bounds; they
    stay unbound ([None]) when no test holds. *)
Definition nan_ge (r : option Q) (c : Q) : bool :=
  match r with Some q => Qle_bool c q | None => false end.

Definition nan_le (r : option Q) (c : Q) : bool :=
  match r with Some q => Qle_bool q c | None => false end.

Definition nan_gt (r : option Q) (c : Q) : bool :=
  match r with Some q => negb (Qle_bool q c) | None => false end.

Definition nan_lt (r : option Q) (c : Q) : bool :=
  match r with Some q => negb (Qle_bool c q) | None => false end.

Definition window_bounds (ratio : option Q) (bins_max w : Q) : option (Q * Q) :=
  let b0 : option (Q * Q) := None in
  let b1 := if nan_ge ratio (66 # 100)
            then Some (bins_max - 8 * w, bins_max + 4 * w) else b0 in
  let b2 := if nan_le ratio (33 # 100)
            then Some (bins_max - 4 * w, bins_max + 8 * w) else b1 in
  let b3 := if (nan_gt ratio (33 # 100) && nan_lt ratio (66 # 100))%bool
            then Some (bins_max - 5 * w, bins_max + 5 * w) else b2 in
  b3.

(** Line 298. *)
Definition select_bins (bins : list Q) (lower upper : Q) : list Z :=
  Np.where_ (map (fun b => (Qle_bool lower b && Qle_bool b upper)%bool) bins).

(** Lines 299-302: the window of five indices around the first selected
    one, and the bounds read at its two ends. *)
Definition fallback (bins : list Q) (sel : list Z) (lower upper : Q)
  : result (list Z * Q * Q) :=
  if (Py.len sel <? 3)%Z then
    s0 <- Py.getitem sel 0 ;;
    let sel' := [s0 - 2; s0 - 1; s0; s0 + 1; s0 + 2]%Z in
    s0' <- Py.getitem sel' 0 ;;
    lower' <- Py.getitem bins s0' ;;
    sl' <- Py.getitem sel' (Py.len sel' - 1) ;;
    upper' <- Py.getitem bins sl' ;;
    Ok (sel', lower', upper')
  else Ok (sel, lower, upper).

(** Lines 298-305. *)
Record window : Type := {
  sel_bins_array : list Z;
  lower_all_bins : Q;
  upper_all_bins : Q;
  sel_bins : list Q;
  sel_hist : list nat;
  sel_flux : list Q
}.

(** The width [all_bins[1]-all_bins[0]] that each branch of lines
    289-297 reads is read once, ahead of them: line 281 has read the same
    two entries. *)
Definition select_window (flux : list Q) (h : peak_histo) (a : asymmetry)
  : result window :=
  w <- bin_width (all_bins h) ;;
  match window_bounds (emission_absorption_ratio a) (all_bins_max h) w with
  | None => Raise UnboundLocalError
  | Some (lower0, upper0) =>
      let sel0 := select_bins (all_bins h) lower0 upper0 in
      slu <- fallback (all_bins h) sel0 lower0 upper0 ;;
      let '(sel, lower, upper) := slu in
      s0 <- Py.getitem sel 0 ;;
      sl <- Py.getitem sel (Py.len sel - 1) ;;
      Ok {| sel_bins_array := sel;
            lower_all_bins := lower;
            upper_all_bins := upper;
            sel_bins := Py.slice (all_bins h) s0 (sl + 1);
            sel_hist := Py.slice (all_hist h) s0 (sl + 1);
            sel_flux := filter (fun x => (Qle_bool lower x && Qle_bool x upper)%bool) flux |}
  end.

(** The whole function with its local variables kept. *)
Definition run (flux : list Q) (rms_noise : Q)
  : result (peak_histo * asymmetry * window) :=
  h <- build_histogram flux rms_noise ;;
  a <- measure_asymmetry h ;;
  w <- select_window flux h a ;;
  Ok (h, a, w).

End ContHisto.

(** [cont_histo(flux, rms_noise)] returns
    [all_bins, all_hist, sel_bins, sel_hist, sel_flux]. *)
Record histo : Type := {
  h_all_bins : list Q;
  h_all_hist : list nat;
  h_sel_bins : list Q;
  h_sel_hist : list nat;
  h_sel_flux : list Q
}.

Definition cont_histo (flux : list Q) (rms_noise : Q) : result histo :=
  r <- ContHisto.run flux rms_noise ;;
  let '(h, _, w) := r in
  Ok {| h_all_bins := ContHisto.all_bins h;
        h_all_hist := ContHisto.all_hist h;
        h_sel_bins := ContHisto.sel_bins w;
        h_sel_hist := ContHisto.sel_hist w;
        h_sel_flux := ContHisto.sel_flux w |}.

(** ** Lines 275-305 in double precision

    The arithmetic of [cont_histo] as binary64 carries it out: every
    operation of the source's own lines is the exact one followed by
    rounding to the nearest double, ties to even.  The exponent range is
    not represented (no overflow, no subnormal numbers).  [np.histogram]
    stays the one of [Np]; the comparisons, the index arithmetic and
    the slices are those of [ContHisto]. *)

Module Doubles.

(** [floor(log2(q))] for a positive [q]. *)
Definition ilog2 (q : Q) : Z :=
  let e := (Z.log2 (Qnum q) - Z.log2 (Zpos (Qden q)))%Z in
  if Qle_bool (2 ^ e) q then e else (e - 1)%Z.

(** The nearest integer to a non-negative [q], the even one on a tie. *)
Definition round_half_even (q : Q) : Z :=
  let f := Qfloor q in
  match Qcompare (q - inject_Z f) (1 # 2) with
  | Lt => f
  | Gt => (f + 1)%Z
  | Eq => if Z.even f then f else (f + 1)%Z
  end.

(** A positive [q] to 53 significant bits. *)
Definition round_pos (q : Q) : Q :=
  let e := (ilog2 q - 52)%Z in
  Qred (inject_Z (round_half_even (q / 2 ^ e)) * 2 ^ e).

Definition round (q : Q) : Q :=
  match Qcompare q 0 with
  | Eq => 0
  | Gt => round_pos q
  | Lt => - round_pos (- q)
  end.

Definition add (x y : Q) : Q := round (x + y).
Definition sub (x y : Q) : Q := round (x - y).
Definition mul (x y : Q) : Q := round (x * y).
Definition div (x y : Q) : Q := round (x / y).

(** [(all_bins[1]-all_bins[0])]. *)
Definition bin_width (bins : list Q) : result Q :=
  b1 <- Py.getitem bins 1 ;;
  b0 <- Py.getitem bins 0 ;;
  Ok (sub b1 b0).

(** Line 278. *)
Definition bin_centres (left_edges : list Q) : result (list Q) :=
  match left_edges with
  | [] => Ok []
  | _ => w <- bin_width left_edges ;;
         Ok (map (fun x => add x (div w 2)) left_edges)
  end.

(** Line 275. *)
Definition bin_count (flux : list Q) (rms_noise : Q) : result Z :=
  mx <- Np.amax flux ;;
  mn <- Np.amin flux ;;
  let a := sub mx mn in
  let b := mul 2 rms_noise in
  if Qeq_bool b 0 then
    if Qeq_bool a 0 then Raise ValueError else Raise OverflowError
  else Ok (Py.int (div a b)).

(** Lines 275-281. *)
Definition build_histogram (flux : list Q) (rms_noise : Q)
  : result ContHisto.peak_histo :=
  number_bins <- bin_count flux rms_noise ;;
  hb <- Np.histogram flux number_bins ;;
  let all_hist := fst hb in
  let all_bin_edges := snd hb in
  let left_edges := Py.slice all_bin_edges 0 (Py.len all_bin_edges - 1) in
  all_bins <- bin_centres left_edges ;;
  all_number_max <- first_max_index all_hist ;;
  e <- Py.getitem all_bin_edges all_number_max ;;
  w <- bin_width all_bins ;;
  Ok {| ContHisto.number_bins := number_bins;
        ContHisto.all_hist := all_hist;
        ContHisto.all_bin_edges := all_bin_edges;
        ContHisto.all_bins := all_bins;
        ContHisto.all_number_max := all_number_max;
        ContHisto.all_bins_max := add e (div w 2) |}.

(** Lines 285-288: the quotient of line 288 is rounded. *)
Definition measure_asymmetry (h : ContHisto.peak_histo) : result ContHisto.asymmetry :=
  a <- ContHisto.measure_asymmetry h ;;
  Ok {| ContHisto.all_number_left := ContHisto.all_number_left a;
        ContHisto.all_number_right := ContHisto.all_number_right a;
        ContHisto.all_number_total := ContHisto.all_number_total a;
        ContHisto.emission_absorption_ratio :=
          option_map round (ContHisto.emission_absorption_ratio a) |}.

(** Lines 289-297, against the doubles nearest to 0.66 and 0.33. *)
Definition window_bounds (ratio : option Q) (bins_max w : Q) : option (Q * Q) :=
  let b0 : option (Q * Q) := None in
  let b1 := if ContHisto.nan_ge ratio (round (66 # 100))
            then Some (sub bins_max (mul 8 w), add bins_max (mul 4 w)) else b0 in
  let b2 := if ContHisto.nan_le ratio (round (33 # 100))
            then Some (sub bins_max (mul 4 w), add bins_max (mul 8 w)) else b1 in
  let b3 := if (ContHisto.nan_gt ratio (round (33 # 100))
                && ContHisto.nan_lt ratio (round (66 # 100)))%bool
            then Some (sub bins_max (mul 5 w), add bins_max (mul 5 w)) else b2 in
  b3.

(** Lines 298-305. *)
Definition select_window (flux : list Q) (h : ContHisto.peak_histo)
           (a : ContHisto.asymmetry) : result ContHisto.window :=
  w <- bin_width (ContHisto.all_bins h) ;;
  match window_bounds (ContHisto.emission_absorption_ratio a)
                      (ContHisto.all_bins_max h) w with
  | None => Raise UnboundLocalError
  | Some (lower0, upper0) =>
      let sel0 := ContHisto.select_bins (ContHisto.all_bins h) lower0 upper0 in
      slu <- ContHisto.fallback (ContHisto.all_bins h) sel0 lower0 upper0 ;;
      let '(sel, lower, upper) := slu in
      s0 <- Py.getitem sel 0 ;;
      sl <- Py.getitem sel (Py.len sel - 1) ;;
      Ok {| ContHisto.sel_bins_array := sel;
            ContHisto.lower_all_bins := lower;
            ContHisto.upper_all_bins := upper;
            ContHisto.sel_bins := Py.slice (ContHisto.all_bins h) s0 (sl + 1);
            ContHisto.sel_hist := Py.slice (ContHisto.all_hist h) s0 (sl + 1);
            ContHisto.sel_flux :=
              filter (fun x => (Qle_bool lower x && Qle_bool x upper)%bool) flux |}
  end.

Definition run (flux : list Q) (rms_noise : Q)
  : result (ContHisto.peak_histo * ContHisto.asymmetry * ContHisto.window) :=
  h <- build_histogram flux rms_noise ;;
  a <- measure_asymmetry h ;;
  w <- select_window flux h a ;;
  Ok (h, a, w).

Definition cont_histo (flux : list Q) (rms_noise : Q) : result histo :=
  r <- run flux rms_noise ;;
  let '(h, _, w) := r in
  Ok {| h_all_bins := ContHisto.all_bins h;
        h_all_hist := ContHisto.all_hist h;
        h_sel_bins := ContHisto.sel_bins w;
        h_sel_hist := ContHisto.sel_hist w;
        h_sel_flux := ContHisto.sel_flux w |}.

End Doubles.

(** ** The estimators *)

(** [np.mean(a)]: NaN on an empty array. *)
Definition np_sum (a : list Q) : Q := fold_right Qplus 0 a.

Definition np_mean (a : list Q) : option Q :=
  match a with
  | [] => None
  | _ => Some (np_sum a / inject_Z (Py.len a))
  end.

(** [np.sort(a)]. *)
Fixpoint insert_sorted (x : Q) (l : list Q) : list Q :=
  match l with
  | [] => [x]
  | y :: t => if Qle_bool x y then x :: l else y :: insert_sorted x t
  end.

Definition np_sort (a : list Q) : list Q := fold_right insert_sorted [] a.

(** [np.median(a)]: the mean of the middle element of the sorted array,
    or of its two middle elements. *)
Definition np_median (a : list Q) : option Q :=
  let part := np_sort a in
  let sz := Py.len part in
  let index := (sz / 2)%Z in
  if (sz mod 2 =? 1)%Z then np_mean (Py.slice part index (index + 1))
  else np_mean (Py.slice part (index - 1) (index + 1)).

(** [np.percentile(a, q)] with the default linear interpolation: the
    two neighbours of the fractional index [q/100 * (n - 1)] of the
    sorted array, weighted by their distance to it.  A percentile
    outside [[0, 100]] is refused; on an empty array the two reads are
    out of range. *)
Definition np_percentile (a : list Q) (q : Q) : result Q :=
  if (negb (Qle_bool 0 q) || negb (Qle_bool q 100))%bool then Raise ValueError
  else
    let ap := np_sort a in
    let Nx := Py.len ap in
    let indices := (q / 100) * inject_Z (Nx - 1) in
    let indices_below := Qfloor indices in
    let indices_above := Z.min (indices_below + 1) (Nx - 1) in
    let weights_above := indices - inject_Z indices_below in
    let weights_below := 1 - weights_above in
    x1 <- Py.getitem ap indices_below ;;
    x2 <- Py.getitem ap indices_above ;;
    Ok (x1 * weights_below + x2 * weights_above).

Definition c_max (flux : list Q) (rms_noise : Q) : result Q :=
  h <- cont_histo flux rms_noise ;;
  i <- first_max_index (h_all_hist h) ;;
  Py.getitem (h_all_bins h) i.

Definition c_mean (flux : list Q) (rms_noise : Q) : result (option Q * option Q) :=
  h <- cont_histo flux rms_noise ;;
  let mean_flux := np_mean flux in
  let meansel_flux := np_mean (h_sel_flux h) in
  Ok (mean_flux, meansel_flux).

Definition c_median (flux : list Q) (rms_noise : Q) : result (option Q * option Q) :=
  h <- cont_histo flux rms_noise ;;
  let median_flux := np_median flux in
  let mediansel_flux := np_median (h_sel_flux h) in
  Ok (median_flux, mediansel_flux).

Definition c_percent (flux : list Q) (percentile : Q) : result Q :=
  np_percentile flux percentile.

(** The three parameters [p[0], p[1], p[2]] of the Gaussian
    [p[0]*exp(-0.5*((x-p[1])/p[2])**2)]; each is a float, NaN included. *)
Record fit_params : Type := {
  p0 : option Q;
  p1 : option Q;
  p2 : option Q
}.

(** The primitives that stay abstract.  [leastsq init x y] stands for
    [leastsq(errfunc, init, args=(x, y))] and gives the parameter vector
    with the integer flag [ier] ([c_Gaussian] calls it on three points
    or more, which SciPy accepts for three parameters);
    [sigma_clip a s] gives the samples that
    [sigma_clip(a, sigma=s, iters=None)] leaves unmasked. *)
Class Primitives : Type := {
  np_std : list Q -> option Q;
  leastsq : fit_params -> list Q -> list nat -> fit_params * Z;
  sigma_clip : list Q -> Q -> list Q;
  astropy_version_major : Z
}.

(** SciPy: "If [ier] is equal to 1, 2, 3 or 4, the solution was found.
    Otherwise, the solution was not found." *)
Definition solution_found (ier : Z) : bool :=
  ((ier =? 1) || (ier =? 2) || (ier =? 3) || (ier =? 4))%Z%bool.

(** A computation that calls [leastsq]; running it against the
    primitive gives its value, and the list of the calls it made. *)
Inductive fit (A : Type) : Type :=
| Done (a : A)
| Leastsq (init : fit_params) (x : list Q) (y : list nat)
          (k : fit_params * Z -> fit A).

Arguments Done {A} a.
Arguments Leastsq {A} init x y k.

Record fit_call : Type := {
  call_init : fit_params;
  call_x : list Q;
  call_y : list nat;
  call_ier : Z
}.

Fixpoint interp {A : Type} (oracle : fit_params -> list Q -> list nat -> fit_params * Z)
         (m : fit A) : A * list fit_call :=
  match m with
  | Done a => (a, [])
  | Leastsq init x y k =>
      let out := oracle init x y in
      let '(a, calls) := interp oracle (k out) in
      (a, {| call_init := init; call_x := x; call_y := y; call_ier := snd out |} :: calls)
  end.

Section Estimators.

Context {P : Primitives}.

(** Lines 177-192 of [c_Gaussian], after the call of [cont_histo]. *)
Definition c_Gaussian_fits (h : histo)
  : fit (option Q * option Q * option Q * option Q) :=
  let meansel_flux := np_mean (h_sel_flux h) in
  let meansel_sigma := np_std (h_sel_flux h) in
  let init := {| p0 := Some (inject_Z (Z.of_nat (Np.cmax (h_all_hist h))));
                 p1 := meansel_flux; p2 := meansel_sigma |} in
  Leastsq init (h_all_bins h) (h_all_hist h) (fun out =>
  let c := fst out in
  let Gaussian_flux := p1 c in
  let Gaussian_noise := p2 c in
  let init := {| p0 := Some (inject_Z (Z.of_nat (Np.cmax (h_all_hist h))));
                 p1 := meansel_flux; p2 := meansel_sigma |} in
  Leastsq init (h_sel_bins h) (h_sel_hist h) (fun out =>
  let d := fst out in
  let GaussNw_flux := p1 d in
  let GaussNw_noise := p2 d in
  Done (Gaussian_flux, Gaussian_noise, GaussNw_flux, GaussNw_noise))).

Definition c_Gaussian (flux : list Q) (rms_noise : Q)
  : result (option Q * option Q * option Q * option Q) :=
  h <- cont_histo flux rms_noise ;;
  Ok (fst (interp leastsq (c_Gaussian_fits h))).

(** The calls of [leastsq] that [c_Gaussian] makes. *)
Definition c_Gaussian_calls (flux : list Q) (rms_noise : Q) : result (list fit_call) :=
  h <- cont_histo flux rms_noise ;;
  Ok (snd (interp leastsq (c_Gaussian_fits h))).

(** Float arithmetic and comparisons with NaN. *)
Definition fsub (a b : option Q) : option Q :=
  match a, b with Some x, Some y => Some (x - y) | _, _ => None end.

Definition fadd (a b : option Q) : option Q :=
  match a, b with Some x, Some y => Some (x + y) | _, _ => None end.

Definition c_sigmaclip (flux : list Q) (rms_noise : Q) (sigma_clip_threshold : Q)
  : result (option Q * option Q) :=
  filtered_data <-
    (if (astropy_version_major >=? 1)%Z then Ok (sigma_clip flux sigma_clip_threshold)
     else if (astropy_version_major <? 1)%Z then Ok (sigma_clip flux sigma_clip_threshold)
     else Raise UnboundLocalError) ;;
  let sigmaclip_flux_prev := np_mean filtered_data in
  let sigmaclip_sigma := np_std filtered_data in
  let sigmaclip_noise := sigmaclip_sigma in
  let mean_flux := np_mean flux in
  let sigmaclip_flux :=
    if ContHisto.nan_gt (fsub mean_flux sigmaclip_flux_prev) (1 * rms_noise)
    then fsub sigmaclip_flux_prev sigmaclip_sigma
    else if ContHisto.nan_lt (fsub mean_flux sigmaclip_flux_prev) (- (1) * rms_noise)
    then fadd sigmaclip_flux_prev sigmaclip_sigma
    else sigmaclip_flux_prev in
  Ok (sigmaclip_flux, sigmaclip_noise).

End Estimators.

(** The default of the third argument of [c_sigmaclip]. *)
Definition default_sigma_clip_threshold : Q := 18 # 10.

(** ** [c_KDEmax] *)

(** [np.argmax(a)]: the first index of the maximum. *)
Fixpoint argmax_from (best : Q) (bi i : nat) (a : list Q) : nat :=
  match a with
  | [] => bi
  | x :: t =>
      if Qle_bool x best then argmax_from best bi (S i) t
      else argmax_from x i (S i) t
  end.

Definition np_argmax (a : list Q) : result Z :=
  match a with
  | [] => Raise ValueError
  | x :: t => Ok (Z.of_nat (argmax_from x 0 1 t))
  end.

(** [np.mgrid[a:b:100j]]: [num] points from [a] to [b], both included,
    computed as [arange(num) * step + a] with [step = (b - a)/(num - 1)]. *)
Definition np_mgrid (a b : Q) (num : nat) : list Q :=
  map (fun i : nat => inject_Z (Z.of_nat i) * ((b - a) / inject_Z (Z.of_nat num - 1)) + a)
      (seq 0 num).

(** [stats.gaussian_kde(dataset, bw_method=h)]: the constructor can
    raise; the object it builds is evaluated point by point. *)
Class KernelDensity : Type := {
  gaussian_kde : list Q -> Q -> result (Q -> Q)
}.

(** [min(flux)], [max(flux)] of line 135 are Python's built-ins, which
    raise [ValueError] on an empty array as the NumPy reductions do.
    [positions] is the grid as one row, [positions.T] the grid as one
    column: the function returns an array of one element. *)
Definition c_KDEmax {K : KernelDensity} (flux : list Q) (rms_noise : Q)
  : result (list Q) :=
  let KDE_bandwidth := rms_noise / 10 in
  scipy_kde <- gaussian_kde flux KDE_bandwidth ;;
  KDExmin <- Np.amin flux ;;
  KDExmax <- Np.amax flux ;;
  let KDEx := np_mgrid KDExmin KDExmax 100 in
  let positions_T := map (fun x => [x]) KDEx in
  let KDEpos := map scipy_kde KDEx in
  i <- np_argmax KDEpos ;;
  Py.getitem positions_T i.

(** ** An instance of the primitives for the examples

    [np.std] is given where it is rational (NaN stands in elsewhere, so
    the examples stay on arrays with a rational deviation);
    [sigma_clip] rejects, around the median and until nothing changes,
    the samples whose squared deviation exceeds [s^2] times the
    variance; [leastsq] is a routine that stops at its initial guess
    with [ier = 5] (the limit of evaluations reached). *)
Module Example.

Definition np_var (a : list Q) : option Q :=
  match np_mean a with
  | None => None
  | Some m => np_mean (map (fun x => (x - m) * (x - m)) a)
  end.

Definition sqrt_exact (q : Q) : option Q :=
  let r := Qred q in
  let n := Z.sqrt (Qnum r) in
  let d := Z.sqrt (Zpos (Qden r)) in
  if ((n * n =? Qnum r) && (d * d =? Zpos (Qden r)) && (0 <? d))%Z%bool
  then Some (Qmake n (Z.to_pos d)) else None.

Definition std (a : list Q) : option Q :=
  match np_var a with
  | None => None
  | Some v => sqrt_exact v
  end.

Definition clip_once (a : list Q) (s : Q) : list Q :=
  match np_median a, np_var a with
  | Some c, Some v =>
      filter (fun x => Qle_bool ((x - c) * (x - c)) (v * (s * s))) a
  | _, _ => a
  end.

Fixpoint clip (fuel : nat) (a : list Q) (s : Q) : list Q :=
  match fuel with
  | O => a
  | S fuel' =>
      let a' := clip_once a s in
      if Nat.eqb (length a') (length a) then a else clip fuel' a' s
  end.

Definition stalled_leastsq (init : fit_params) (x : list Q) (y : list nat)
  : fit_params * Z := (init, 5%Z).

#[export] Instance primitives : Primitives := {|
  np_std := std;
  leastsq := stalled_leastsq;
  sigma_clip := fun a s => clip (length a) a s;
  astropy_version_major := 1
|}.

End Example.

(** A density estimate with a triangular kernel of half-width [h], for
    the examples: it is rational where the Gaussian one is not. *)
Module ExampleKde.

Definition triangle (h x xi : Q) : Q :=
  let d := Qabs (x - xi) in
  if Qle_bool h d then 0 else 1 - d / h.

Definition triangular_kde (data : list Q) (h : Q) : result (Q -> Q) :=
  match data with
  | [] => Raise ValueError
  | _ => Ok (fun x => np_sum (map (triangle h x) data))
  end.

#[export] Instance density : KernelDensity := {|
  gaussian_kde := triangular_kde
|}.

End ExampleKde.

(** ** Vocabulary of the statements *)

Import ContHisto.

(** The common width of [N] equal bins on [[mn, mx]]; edge [i] as
    [np.linspace] computes it, centre [i] as line 278 does. *)
Definition step (mn mx : Q) (N : nat) : Q := (mx - mn) / inject_Z (Z.of_nat N).

Definition edge (mn mx : Q) (N : nat) (i : nat) : Q :=
  mn + inject_Z (Z.of_nat i) * step mn mx N.

Definition centre (mn mx : Q) (N : nat) (i : nat) : Q :=
  edge mn mx N i + (edge mn mx N 1 - edge mn mx N 0) / 2.

(** The inputs that the specification calls valid. *)
Definition valid_input (flux : list Q) (rms_noise : Q) : Prop :=
  exists mx mn, Np.amax flux = Ok mx /\ Np.amin flux = Ok mn /\
                mn < mx /\ 0 < rms_noise.

(** The ratio of line 288 as a function of the input. *)
Definition ratio_of (flux : list Q) (rms_noise : Q) : result (option Q) :=
  h <- ContHisto.build_histogram flux rms_noise ;;
  a <- ContHisto.measure_asymmetry h ;;
  Ok (ContHisto.emission_absorption_ratio a).

(** The bin of a sample in the histogram that [cont_histo] builds. *)
Definition bin_of (flux : list Q) (h : ContHisto.peak_histo) (x : Q) : Z :=
  Np.bin_index (fst (Np.outer_edges flux)) (snd (Np.outer_edges flux))
               (Z.to_nat (ContHisto.number_bins h)) x.

(** What [build_histogram] gives when it returns: the analysis of the
    later stages is stated against these facts. *)
(** What [build_histogram] establishes when it returns [h]: the data
    span [[mn, mx]], split in [N >= 2] bins, with the peak in bin [p]. *)
Record histo_facts (flux : list Q) (rms : Q) (h : peak_histo)
       (mn mx : Q) (N p : nat) : Prop := {
  hf_amax : Np.amax flux = Ok mx;
  hf_amin : Np.amin flux = Ok mn;
  hf_range : forall x, In x flux -> mn <= x <= mx;
  hf_lt : mn < mx;
  hf_rms : 0 < rms;
  hf_N : (2 <= N)%nat;
  hf_count : bin_count flux rms = Ok (Z.of_nat N);
  hf_bins : number_bins h = Z.of_nat N;
  hf_edges : all_bin_edges h = map (edge mn mx N) (seq 0 (S N));
  hf_hist : all_hist h = map (Np.count_bin mn mx N flux) (seq 0 N);
  hf_centres : all_bins h = map (centre mn mx N) (seq 0 N);
  hf_peak : all_number_max h = Z.of_nat p;
  hf_p : (p < N)%nat;
  hf_peak_count : Np.count_bin mn mx N flux p = Np.cmax (all_hist h);
  hf_peak_first : forall j, (j < p)%nat ->
                            Np.count_bin mn mx N flux j <> Np.cmax (all_hist h);
  hf_count_pos : (1 <= Np.cmax (all_hist h))%nat;
  hf_bins_max : all_bins_max h == centre mn mx N p
}.

(** What [measure_asymmetry] establishes when it returns [a]. *)
Record asym_facts (h : peak_histo) (a : asymmetry) (N p : nat) : Prop := {
  af_left : (0 <= all_number_left a <= Z.of_nat p)%Z;
  af_right : (Z.of_nat p <= all_number_right a <= Z.of_nat N - 1)%Z;
  af_apart : (all_number_left a < all_number_right a)%Z;
  af_total : all_number_total a = (all_number_right a - all_number_left a)%Z;
  af_ratio : emission_absorption_ratio a
             = Some (inject_Z (all_number_right a - Z.of_nat p)
                     / inject_Z (all_number_right a - all_number_left a))
}.

(** What [select_window] establishes when it returns [w]. *)
Record window_facts (flux : list Q) (h : peak_histo) (a : asymmetry) (w : window)
       (mn mx : Q) (N p : nat) : Prop := {
  wf_bounds : exists bw,
      bin_width (all_bins h) = Ok bw /\
      window_bounds (emission_absorption_ratio a) (all_bins_max h) bw
      = Some (lower_all_bins w, upper_all_bins w);
  wf_sel : sel_bins_array w
           = select_bins (all_bins h) (lower_all_bins w) (upper_all_bins w);
  wf_three : (3 <= length (sel_bins_array w))%nat;
  wf_peak_in : In (Z.of_nat p) (sel_bins_array w);
  wf_ends : exists s0 sl,
      Py.getitem (sel_bins_array w) 0 = Ok s0 /\
      Py.getitem (sel_bins_array w) (Py.len (sel_bins_array w) - 1) = Ok sl /\
      (0 <= s0 <= Z.of_nat p)%Z /\ (Z.of_nat p <= sl < Z.of_nat N)%Z /\
      (s0 + 2 <= sl)%Z /\
      sel_bins w = Py.slice (all_bins h) s0 (sl + 1) /\
      sel_hist w = Py.slice (all_hist h) s0 (sl + 1);
  wf_flux : sel_flux w
            = filter (fun x => (Qle_bool (lower_all_bins w) x
                                && Qle_bool x (upper_all_bins w))%bool) flux;
  wf_peak_samples : forall x, In x flux ->
                              Np.bin_index mn mx N x = Z.of_nat p ->
                              In x (sel_flux w)
}.

(** The guess of lines 180 and 186. *)
Definition windowed_guess {P : Primitives} (out : histo) : fit_params :=
  {| p0 := Some (inject_Z (Z.of_nat (Np.cmax (h_all_hist out))));
     p1 := np_mean (h_sel_flux out);
     p2 := np_std (h_sel_flux out) |}.

(** The bin centres of line 278 are strictly increasing: no two of
    them coincide. *)
Fixpoint increasing (bins : list Q) : bool :=
  match bins with
  | [] => true
  | x :: t =>
      match t with
      | [] => true
      | y :: _ => (negb (Qle_bool y x) && increasing t)%bool
      end
  end.

(** [all_bins_max] lies above the centre of every bin below the peak
    and below the centre of every bin above it. *)
Definition peak_separates (h : peak_histo) : bool :=
  let p := Z.to_nat (all_number_max h) in
  (forallb (fun c => negb (Qle_bool (all_bins_max h) c)) (firstn p (all_bins h))
   && forallb (fun c => negb (Qle_bool c (all_bins_max h))) (skipn (S p) (all_bins h)))%bool.

(** The states after line 281 on which the comparisons of lines 285-286
    between bin centres decide as the bin indices do: one centre per
    count, the peak on the first bin of maximal count, which holds a
    sample, and centres in strictly increasing order that
    [all_bins_max] separates at the peak.  Every state that lines
    275-281 reach in exact arithmetic is one; in double precision the
    centres of neighbouring bins can round to the same number. *)
Definition regular (h : peak_histo) : bool :=
  ((number_bins h =? Py.len (all_bins h))%Z
   && Nat.eqb (length (all_hist h)) (length (all_bins h))
   && match first_max_index (all_hist h) with
      | Ok p => (p =? all_number_max h)%Z
      | Raise _ => false
      end
   && Nat.leb 1 (Np.cmax (all_hist h))
   && increasing (all_bins h)
   && peak_separates h)%bool.


(** ** The claims that fail, as the specification words them *)

(** C6 as stated: a ratio in [[0, 1]] for every valid input. *)
Definition ratio_defined_on_valid_input : Prop :=
  forall flux rms_noise,
    valid_input flux rms_noise ->
    exists r, ratio_of flux rms_noise = Ok (Some r) /\ 0 <= r <= 1.

(** C4 as stated: [EmptyFluxError] for an empty array or a spread below
    [2 * rms_noise]. *)
Definition narrow_flux_raises_EmptyFluxError : Prop :=
  forall flux rms_noise,
    0 < rms_noise ->
    (flux = [] \/
     exists mx mn, Np.amax flux = Ok mx /\ Np.amin flux = Ok mn /\
                   mx - mn < 2 * rms_noise) ->
    cont_histo flux rms_noise = Raise EmptyFluxError.

(** C3 as stated, on the fallback step: with
    fewer than three bins selected and one of the five indices outside
    the histogram, [DegenerateWindowError] is raised. *)
Definition fallback_raises_DegenerateWindowError : Prop :=
  forall bins sel lower upper s0,
    (Py.len sel < 3)%Z -> Py.getitem sel 0 = Ok s0 ->
    (s0 - 2 < 0 \/ Py.len bins <= s0 + 2)%Z ->
    fallback bins sel lower upper = Raise DegenerateWindowError.

(** C8 as stated: [FitDidNotConvergeError] when a call of [leastsq]
    reports no solution. *)
Definition unconverged_fit_raises : Prop :=
  forall (P : Primitives) flux rms_noise calls,
    c_Gaussian_calls flux rms_noise = Ok calls ->
    (exists c, In c calls /\ solution_found (call_ier c) = false) ->
    c_Gaussian flux rms_noise = Raise FitDidNotConvergeError.

(** C9 as stated: on a non-empty array with a valid noise,
    [c_percent(flux, 50)] is the first component of what
    [c_median(flux, rms_noise)] returns. *)
Definition percent_50_equals_c_median : Prop :=
  forall flux rms_noise,
    flux <> [] -> 0 < rms_noise ->
    exists v m ms,
      c_percent flux 50 = Ok v /\
      c_median flux rms_noise = Ok (Some m, ms) /\ v == m.


(** * Properties *)

(** ** The error monad *)

Lemma bind_Ok {A B : Type} (r : result A) (k : A -> result B) (b : B) :
  bind r k = Ok b -> exists a, r = Ok a /\ k a = Ok b.
Proof.
  destruct r as [a|e]; simpl; intros H; [eauto | discriminate].
Qed.

Lemma bind_Raise {A B : Type} (r : result A) (k : A -> result B) (e : exn) :
  bind r k = Raise e -> r = Raise e \/ exists a, r = Ok a /\ k a = Raise e.
Proof.
  destruct r as [a|e']; simpl; intros H; [right; eauto | left; congruence].
Qed.

(** Peel the binds of a hypothesis [H : bind ... = Ok _]. *)
Ltac bind_inv H :=
  repeat match type of H with
         | bind _ _ = Ok _ =>
             let a := fresh "v" in
             let E := fresh "E" in
             apply bind_Ok in H; destruct H as (a & E & H)
         end.

(** ** Python indexing *)

Lemma getitem_nat {A : Type} (l : list A) (i : nat) (a : A) :
  nth_error l i = Some a -> Py.getitem l (Z.of_nat i) = Ok a.
Proof.
  intros H. unfold Py.getitem.
  assert (Hi : (i < length l)%nat) by (apply nth_error_Some; congruence).
  destruct (Z.ltb_spec (Z.of_nat i) 0); [lia|].
  destruct (Z.ltb_spec (Z.of_nat i) 0); [lia|].
  destruct (Z.leb_spec (Z.of_nat (length l)) (Z.of_nat i)); [lia|].
  simpl. rewrite Nat2Z.id, H. reflexivity.
Qed.

Lemma getitem_Ok_nonneg {A : Type} (l : list A) (i : Z) (a : A) :
  (0 <= i)%Z -> Py.getitem l i = Ok a ->
  nth_error l (Z.to_nat i) = Some a /\ (i < Py.len l)%Z.
Proof.
  intros Hi. unfold Py.getitem, Py.len.
  destruct (Z.ltb_spec i 0); [lia|].
  destruct (Z.ltb_spec i 0); [lia|].
  destruct (Z.leb_spec (Z.of_nat (length l)) i); simpl; [discriminate|].
  destruct (nth_error l (Z.to_nat i)) eqn:E; [|discriminate].
  intros [= ->]. split; [reflexivity | assumption].
Qed.

Lemma getitem_above {A : Type} (l : list A) (i : Z) :
  (Py.len l <= i)%Z -> Py.getitem l i = Raise IndexError.
Proof.
  intros Hi. unfold Py.getitem, Py.len in *.
  destruct (Z.ltb_spec i 0); [lia|].
  destruct (Z.ltb_spec i 0); [lia|].
  destruct (Z.leb_spec (Z.of_nat (length l)) i); [reflexivity | lia].
Qed.

Lemma getitem_wraps {A : Type} (l : list A) (i : Z) :
  (i < 0)%Z -> (0 <= i + Py.len l)%Z ->
  Py.getitem l i = Py.getitem l (i + Py.len l).
Proof.
  intros Hi Hn. unfold Py.getitem, Py.len in *.
  rewrite (proj2 (Z.ltb_lt i 0) Hi).
  cbv zeta. rewrite !(proj2 (Z.ltb_ge (i + Z.of_nat (length l)) 0) Hn).
  reflexivity.
Qed.

Lemma getitem_only_IndexError {A : Type} (l : list A) (i : Z) (e : exn) :
  Py.getitem l i = Raise e -> e = IndexError.
Proof.
  unfold Py.getitem.
  destruct (_ || _)%bool; [intros [= <-]; reflexivity|].
  destruct (nth_error _ _); [discriminate | intros [= <-]; reflexivity].
Qed.

Lemma slice_range {A : Type} (l : list A) (a b : nat) :
  (a <= b)%nat -> (b <= length l)%nat ->
  Py.slice l (Z.of_nat a) (Z.of_nat b) = firstn (b - a) (skipn a l).
Proof.
  intros Hab Hb. unfold Py.slice. cbv zeta.
  rewrite (proj2 (Z.ltb_ge (Z.of_nat a) 0)) by lia.
  rewrite (proj2 (Z.ltb_ge (Z.of_nat b) 0)) by lia.
  replace (Z.max 0 (Z.min (Z.of_nat (length l)) (Z.of_nat a))) with (Z.of_nat a) by lia.
  replace (Z.max 0 (Z.min (Z.of_nat (length l)) (Z.of_nat b))) with (Z.of_nat b) by lia.
  rewrite <- Nat2Z.inj_sub by lia. rewrite !Nat2Z.id. reflexivity.
Qed.

Lemma slice_prefix {A : Type} (l : list A) (k : nat) :
  (k <= length l)%nat -> Py.slice l 0 (Z.of_nat k) = firstn k l.
Proof.
  intros Hk. change 0%Z with (Z.of_nat 0).
  rewrite slice_range by lia. rewrite Nat.sub_0_r. reflexivity.
Qed.

(** ** [np.where] *)

Lemma where_from_In (mask : list bool) :
  forall k i, In i (Np.where_from k mask) <->
              (k <= i)%Z /\ nth_error mask (Z.to_nat (i - k)) = Some true.
Proof.
  induction mask as [|b t IH]; intros k i; simpl.
  - split; [tauto|]. intros [_ H]. destruct (Z.to_nat (i - k)); discriminate.
  - assert (Hstep : forall j, (k + 1 <= j)%Z ->
                      Z.to_nat (j - k) = S (Z.to_nat (j - (k + 1)))) by (intros; lia).
    destruct b; simpl; rewrite ?IH.
    + split.
      * intros [<- | [Hk Hn]].
        -- split; [lia|]. rewrite Z.sub_diag. reflexivity.
        -- split; [lia|]. rewrite Hstep by lia. exact Hn.
      * intros [Hk Hn]. destruct (Z.eq_dec k i) as [->|Hne]; [left; reflexivity|].
        right. split; [lia|]. rewrite Hstep in Hn by lia. exact Hn.
    + split.
      * intros [Hk Hn]. split; [lia|]. rewrite Hstep by lia. exact Hn.
      * intros [Hk Hn]. destruct (Z.eq_dec k i) as [->|Hne].
        -- rewrite Z.sub_diag in Hn. discriminate.
        -- split; [lia|]. rewrite Hstep in Hn by lia. exact Hn.
Qed.

Lemma where_In (mask : list bool) (i : Z) :
  In i (Np.where_ mask) <-> (0 <= i)%Z /\ nth_error mask (Z.to_nat i) = Some true.
Proof.
  unfold Np.where_. rewrite where_from_In, Z.sub_0_r. reflexivity.
Qed.

Lemma where_from_head_least (mask : list bool) :
  forall k p t, Np.where_from k mask = p :: t -> forall i, In i t -> (p < i)%Z.
Proof.
  induction mask as [|b m IH]; intros k p t; simpl; [discriminate|].
  destruct b.
  - intros [= <- <-] i Hi. apply where_from_In in Hi. lia.
  - intros H. exact (IH _ _ _ H).
Qed.

Lemma where_from_sorted (mask : list bool) :
  forall k, StronglySorted Z.lt (Np.where_from k mask).
Proof.
  induction mask as [|b m IH]; intros k; simpl; [constructor|].
  destruct b; [|apply IH].
  constructor; [apply IH|].
  apply Forall_forall. intros i Hi. apply where_from_In in Hi. lia.
Qed.

Lemma where_head (mask : list bool) (p : Z) :
  Py.getitem (Np.where_ mask) 0 = Ok p ->
  In p (Np.where_ mask) /\ forall i, In i (Np.where_ mask) -> (p <= i)%Z.
Proof.
  intros H. apply getitem_Ok_nonneg in H; [|lia]. destruct H as [H _].
  simpl in H. unfold Np.where_ in *.
  destruct (Np.where_from 0 mask) as [|q t] eqn:E; [discriminate|].
  injection H as ->. split; [left; reflexivity|].
  intros i [<- | Hi]; [lia|].
  pose proof (where_from_head_least _ _ _ _ E i Hi). lia.
Qed.

Lemma where_nonempty (mask : list bool) (k : nat) :
  nth_error mask k = Some true -> exists p, Py.getitem (Np.where_ mask) 0 = Ok p.
Proof.
  intros H.
  assert (Hin : In (Z.of_nat k) (Np.where_ mask)).
  { apply where_In. split; [lia|]. rewrite Nat2Z.id. exact H. }
  destruct (Np.where_ mask) as [|p t]; [destruct Hin|].
  exists p. reflexivity.
Qed.

Lemma fold_max_spec (t : list Z) :
  forall x, In (fold_left Z.max t x) (x :: t) /\
            forall i, In i (x :: t) -> (i <= fold_left Z.max t x)%Z.
Proof.
  induction t as [|y t IH]; intros x; simpl.
  - split; [left; reflexivity|]. intros i [<- | []]. lia.
  - destruct (IH (Z.max x y)) as [Hin Hle]. split.
    + destruct Hin as [Hm | Hm]; [|right; right; exact Hm].
      destruct (Z.max_spec x y) as [[_ E] | [_ E]]; [right; left | left]; congruence.
    + intros i Hi. pose proof (Hle (Z.max x y) (or_introl eq_refl)) as H0.
      destruct Hi as [<- | [<- | Hi]]; [lia | lia | apply Hle; right; exact Hi].
Qed.

Lemma fold_min_spec (t : list Z) :
  forall x, In (fold_left Z.min t x) (x :: t) /\
            forall i, In i (x :: t) -> (fold_left Z.min t x <= i)%Z.
Proof.
  induction t as [|y t IH]; intros x; simpl.
  - split; [left; reflexivity|]. intros i [<- | []]. lia.
  - destruct (IH (Z.min x y)) as [Hin Hle]. split.
    + destruct Hin as [Hm | Hm]; [|right; right; exact Hm].
      destruct (Z.min_spec x y) as [[_ E] | [_ E]]; [left | right; left]; congruence.
    + intros i Hi. pose proof (Hle (Z.min x y) (or_introl eq_refl)) as H0.
      destruct Hi as [<- | [<- | Hi]]; [lia | lia | apply Hle; right; exact Hi].
Qed.

Lemma imax_spec (idx : list Z) (m : Z) :
  Np.imax idx = Ok m -> In m idx /\ forall i, In i idx -> (i <= m)%Z.
Proof.
  destruct idx as [|x t]; simpl; [discriminate|].
  intros [= <-]. apply fold_max_spec.
Qed.

Lemma imin_spec (idx : list Z) (m : Z) :
  Np.imin idx = Ok m -> In m idx /\ forall i, In i idx -> (m <= i)%Z.
Proof.
  destruct idx as [|x t]; simpl; [discriminate|].
  intros [= <-]. apply fold_min_spec.
Qed.

Lemma imax_returns (idx : list Z) (i : Z) : In i idx -> returns (Np.imax idx).
Proof. destruct idx; [intros [] | intros _; eexists; reflexivity]. Qed.

Lemma imin_returns (idx : list Z) (i : Z) : In i idx -> returns (Np.imin idx).
Proof. destruct idx; [intros [] | intros _; eexists; reflexivity]. Qed.

(** ** Extrema of the data *)

Lemma fold_Qmax_upper (t : list Q) :
  forall x y, In y (x :: t) -> y <= fold_left Qmax t x.
Proof.
  induction t as [|z t IH]; intros x y; simpl.
  - intros [<- | []]. apply Qle_refl.
  - intros [E | [E | Hy]].
    + subst y. eapply Qle_trans; [apply (Q.le_max_l x z)|]. apply IH. left. reflexivity.
    + subst y. eapply Qle_trans; [apply (Q.le_max_r x z)|]. apply IH. left. reflexivity.
    + apply IH. right. exact Hy.
Qed.

Lemma fold_Qmin_lower (t : list Q) :
  forall x y, In y (x :: t) -> fold_left Qmin t x <= y.
Proof.
  induction t as [|z t IH]; intros x y; simpl.
  - intros [<- | []]. apply Qle_refl.
  - intros [E | [E | Hy]].
    + subst y. eapply Qle_trans; [|apply (Q.le_min_l x z)]. apply IH. left. reflexivity.
    + subst y. eapply Qle_trans; [|apply (Q.le_min_r x z)]. apply IH. left. reflexivity.
    + apply IH. right. exact Hy.
Qed.

Lemma amax_amin_bounds (flux : list Q) (mx mn : Q) :
  Np.amax flux = Ok mx -> Np.amin flux = Ok mn ->
  flux <> [] /\ forall x, In x flux -> mn <= x <= mx.
Proof.
  destruct flux as [|x0 t]; simpl; [discriminate|].
  intros [= <-] [= <-]. split; [discriminate|].
  intros x Hx. split; [apply fold_Qmin_lower | apply fold_Qmax_upper]; exact Hx.
Qed.

(** ** [int()] of a quotient *)

Lemma int_nonneg (q : Q) : 0 <= q -> Py.int q = Qfloor q.
Proof.
  destruct q as [n d]. unfold Qle, Py.int, Qfloor. simpl. intros H.
  apply Z.quot_div_nonneg; lia.
Qed.

Lemma int_nonpos (q : Q) : q <= 0 -> (Py.int q <= 0)%Z.
Proof.
  destruct q as [n d]. unfold Qle, Py.int. simpl. intros H.
  pose proof (Z.quot_le_mono n 0 (Z.pos d)) as M.
  rewrite Z.quot_0_l in M by lia. apply M; lia.
Qed.

Lemma floor_bounds (q : Q) (k : Z) :
  Qfloor q = k <-> inject_Z k <= q < inject_Z (k + 1).
Proof.
  split.
  - intros <-. split; [apply Qfloor_le | apply Qlt_floor].
  - intros [Hl Hu].
    pose proof (Qfloor_le q) as H1. pose proof (Qlt_floor q) as H2.
    assert (A : (k < Qfloor q + 1)%Z).
    { rewrite Zlt_Qlt. eapply Qle_lt_trans; eassumption. }
    assert (B : (Qfloor q < k + 1)%Z).
    { rewrite Zlt_Qlt. eapply Qle_lt_trans; eassumption. }
    lia.
Qed.

(** ** Geometry of the equal-width bins *)

Section Bins.

Variables (mn mx : Q) (N : nat).
Hypothesis mn_lt_mx : mn < mx.
Hypothesis N_pos : (1 <= N)%nat.

Local Abbreviation step := (step mn mx N).
Local Abbreviation edge := (edge mn mx N).
Local Abbreviation centre := (centre mn mx N).

Lemma N_Qpos : 0 < inject_Z (Z.of_nat N).
Proof. change 0 with (inject_Z 0). rewrite <- Zlt_Qlt. lia. Qed.

Lemma step_pos : 0 < step.
Proof.
  unfold step, Qdiv. apply Qmult_lt_0_compat; [lra|].
  apply Qinv_lt_0_compat. exact N_Qpos.
Qed.

Lemma step_N : inject_Z (Z.of_nat N) * step == mx - mn.
Proof.
  unfold step. pose proof N_Qpos. field. lra.
Qed.

Lemma edge_diff : edge 1 - edge 0 == step.
Proof. unfold edge. simpl. ring. Qed.

Lemma centre_eq (i : nat) : centre i == mn + (inject_Z (Z.of_nat i) + (1 # 2)) * step.
Proof. unfold centre. rewrite edge_diff. unfold edge. field. Qed.

Lemma centre_diff : centre 1 - centre 0 == step.
Proof. rewrite !centre_eq. simpl. ring. Qed.

Lemma linspace_edges : Np.linspace mn mx N = map edge (seq 0 (S N)).
Proof. reflexivity. Qed.

Lemma inject_nat_le (i j : nat) :
  (i <= j)%nat <-> inject_Z (Z.of_nat i) <= inject_Z (Z.of_nat j).
Proof. rewrite <- Zle_Qle. lia. Qed.

Lemma inject_nat_plus (i k : nat) :
  inject_Z (Z.of_nat (i + k)) == inject_Z (Z.of_nat i) + inject_Z (Z.of_nat k).
Proof. rewrite Nat2Z.inj_add, inject_Z_plus. reflexivity. Qed.

Lemma centre_le (i j : nat) : centre i <= centre j <-> (i <= j)%nat.
Proof.
  rewrite !centre_eq, inject_nat_le. pose proof step_pos as Hs.
  split; intros H.
  - apply Qnot_lt_le. intros C.
    assert (inject_Z (Z.of_nat j) * step < inject_Z (Z.of_nat i) * step)
      by (apply Qmult_lt_compat_r; assumption).
    lra.
  - assert (inject_Z (Z.of_nat i) * step <= inject_Z (Z.of_nat j) * step)
      by (apply Qmult_le_compat_r; [assumption | lra]).
    lra.
Qed.

Lemma centre_inj (i j : nat) : centre i == centre j -> i = j.
Proof.
  intros E. apply Nat.le_antisymm; apply centre_le; rewrite E; apply Qle_refl.
Qed.

(** Centre [i + k] lies [k] widths above centre [i]. *)
Lemma centre_plus (i k : nat) :
  centre (i + k) == centre i + inject_Z (Z.of_nat k) * step.
Proof. rewrite !centre_eq, inject_nat_plus. ring. Qed.

(** A sample of the data range falls in one of the [N] bins, between the
    two edges of that bin. *)
Lemma bin_index_spec (x : Q) :
  mn <= x <= mx ->
  exists b : nat,
    Np.bin_index mn mx N x = Z.of_nat b /\ (b < N)%nat /\
    edge b <= x <= edge (S b).
Proof.
  intros [Hlo Hhi]. pose proof step_pos as Hs. pose proof N_Qpos as HN.
  pose proof step_N as HsN.
  set (t := (x - mn) * inject_Z (Z.of_nat N) / (mx - mn)).
  assert (Ht : t * step == x - mn).
  { unfold t, step. field. split; lra. }
  assert (Ht0 : 0 <= t).
  { apply Qnot_lt_le. intros C.
    assert (t * step < 0 * step) by (apply Qmult_lt_compat_r; assumption). lra. }
  assert (HtN : t <= inject_Z (Z.of_nat N)).
  { apply Qnot_lt_le. intros C.
    assert (inject_Z (Z.of_nat N) * step < t * step)
      by (apply Qmult_lt_compat_r; assumption). lra. }
  pose proof (Qfloor_le t) as F1. pose proof (Qlt_floor t) as F2.
  assert (Fl : (0 <= Qfloor t)%Z).
  { change 0%Z with (Qfloor 0). apply Qfloor_resp_le. exact Ht0. }
  assert (Fu : (Qfloor t <= Z.of_nat N)%Z).
  { rewrite <- (Qfloor_Z (Z.of_nat N)). apply Qfloor_resp_le. exact HtN. }
  unfold Np.bin_index. fold t.
  destruct (Z.eqb_spec (Qfloor t) (Z.of_nat N)) as [E|E].
  - exists (N - 1)%nat. split; [lia|]. split; [lia|].
    assert (t == inject_Z (Z.of_nat N)).
    { apply Qle_antisym; [exact HtN|]. rewrite <- E. exact F1. }
    assert (Hx : x == mx) by (rewrite H in Ht; lra).
    replace (S (N - 1)) with N by lia. unfold edge.
    assert (HN1 : inject_Z (Z.of_nat (N - 1)) == inject_Z (Z.of_nat N) - 1).
    { replace (Z.of_nat (N - 1)) with (Z.of_nat N + -1)%Z by lia.
      rewrite inject_Z_plus. reflexivity. }
    rewrite HN1. split; [|lra].
    setoid_replace ((inject_Z (Z.of_nat N) - 1) * step)
      with (inject_Z (Z.of_nat N) * step - step) by ring. lra.
  - exists (Z.to_nat (Qfloor t)). split; [lia|]. split; [lia|].
    unfold edge. rewrite Nat2Z.inj_succ, !Z2Nat.id by lia.
    unfold Z.succ.
    assert (A : inject_Z (Qfloor t) * step <= t * step)
      by (apply Qmult_le_compat_r; [assumption | lra]).
    assert (B : t * step <= inject_Z (Qfloor t + 1) * step)
      by (apply Qmult_le_compat_r; lra).
    lra.
Qed.

End Bins.

(** ** Counts *)

Lemma cmax_ge (h : list nat) (c : nat) : In c h -> (c <= Np.cmax h)%nat.
Proof.
  unfold Np.cmax. induction h as [|x t IH]; simpl; [tauto|].
  intros [<- | Hc]; [lia|]. specialize (IH Hc). lia.
Qed.

Lemma cmax_In (h : list nat) : h <> [] -> In (Np.cmax h) h.
Proof.
  induction h as [|x t IH]; [congruence|]. intros _.
  destruct t as [|y t'].
  - left. simpl. lia.
  - assert (Ht : In (Np.cmax (y :: t')) (y :: t')) by (apply IH; discriminate).
    change (Np.cmax (x :: y :: t')) with (Nat.max x (Np.cmax (y :: t'))).
    destruct (Nat.max_spec x (Np.cmax (y :: t'))) as [[_ E] | [_ E]]; rewrite E.
    + right. exact Ht.
    + left. reflexivity.
Qed.

Lemma count_bin_pos (mn mx : Q) (N : nat) (a : list Q) (x : Q) (b : nat) :
  In x a -> Np.bin_index mn mx N x = Z.of_nat b ->
  (1 <= Np.count_bin mn mx N a b)%nat.
Proof.
  intros Hx Hb. unfold Np.count_bin.
  assert (Hin : In x (filter (fun y => (Np.bin_index mn mx N y =? Z.of_nat b)%Z) a)).
  { apply filter_In. split; [exact Hx|]. apply Z.eqb_eq. exact Hb. }
  destruct (filter _ a); [destruct Hin | simpl; lia].
Qed.

Lemma count_bin_witness (mn mx : Q) (N : nat) (a : list Q) (b : nat) :
  (1 <= Np.count_bin mn mx N a b)%nat ->
  exists x, In x a /\ Np.bin_index mn mx N x = Z.of_nat b.
Proof.
  unfold Np.count_bin. intros H.
  destruct (filter (fun y => (Np.bin_index mn mx N y =? Z.of_nat b)%Z) a) as [|x t] eqn:E;
    [simpl in H; lia|].
  assert (Hin : In x (filter (fun y => (Np.bin_index mn mx N y =? Z.of_nat b)%Z) a))
    by (rewrite E; left; reflexivity).
  apply filter_In in Hin. destruct Hin as [Hx Hb]. apply Z.eqb_eq in Hb. eauto.
Qed.

Lemma nth_error_map_seq {A : Type} (f : nat -> A) (n i : nat) :
  (i < n)%nat -> nth_error (map f (seq 0 n)) i = Some (f i).
Proof.
  intros Hi. rewrite nth_error_map, nth_error_seq.
  destruct (Nat.ltb_spec i n); [reflexivity | lia].
Qed.

Lemma nth_error_map_seq_inv {A : Type} (f : nat -> A) (n i : nat) (a : A) :
  nth_error (map f (seq 0 n)) i = Some a -> (i < n)%nat /\ a = f i.
Proof.
  intros H.
  assert (Hi : (i < n)%nat).
  { assert (L : (i < length (map f (seq 0 n)))%nat) by (apply nth_error_Some; congruence).
    rewrite length_map, length_seq in L. exact L. }
  rewrite nth_error_map_seq in H by exact Hi. split; congruence.
Qed.

Lemma getitem_map_seq {A : Type} (f : nat -> A) (n i : nat) :
  (i < n)%nat -> Py.getitem (map f (seq 0 n)) (Z.of_nat i) = Ok (f i).
Proof. intros Hi. apply getitem_nat, nth_error_map_seq, Hi. Qed.

(** ** The number of bins (line 275) *)


Lemma bin_count_inv (flux : list Q) (rms : Q) (n : Z) :
  bin_count flux rms = Ok n ->
  exists mx mn,
    Np.amax flux = Ok mx /\ Np.amin flux = Ok mn /\
    ~ 2 * rms == 0 /\ n = Py.int ((mx - mn) / (2 * rms)).
Proof.
  unfold bin_count. intros H. bind_inv H. exists v, v0.
  unfold Np.divide_to_int in H.
  destruct (Qeq_bool (2 * rms) 0) eqn:Hz.
  - destruct (Qeq_bool (v - v0) 0); discriminate.
  - injection H as <-. repeat split; try assumption.
    intros C. apply Qeq_bool_iff in C. congruence.
Qed.

(** At least one bin means a positive spread and a positive noise. *)
Lemma bin_count_pos (flux : list Q) (rms mx mn : Q) (n : Z) :
  bin_count flux rms = Ok n -> (1 <= n)%Z ->
  Np.amax flux = Ok mx -> Np.amin flux = Ok mn ->
  mn < mx /\ 0 < rms /\ n = Qfloor ((mx - mn) / (2 * rms)).
Proof.
  intros H Hn Hmx Hmn.
  destruct (bin_count_inv _ _ _ H) as (mx' & mn' & Hmx' & Hmn' & Hr & ->).
  rewrite Hmx in Hmx'. rewrite Hmn in Hmn'.
  injection Hmx' as <-. injection Hmn' as <-.
  destruct (amax_amin_bounds _ _ _ Hmx Hmn) as [Hne Hrange].
  assert (Hle : mn <= mx).
  { destruct flux as [|x0 t]; [congruence|].
    destruct (Hrange x0 (or_introl eq_refl)). lra. }
  set (q := (mx - mn) / (2 * rms)) in *.
  assert (Hq : 0 < q).
  { apply Qnot_le_lt. intros C. apply int_nonpos in C. lia. }
  assert (Hmul : q * (2 * rms) == mx - mn).
  { unfold q. field. intros C. apply Hr. rewrite C. reflexivity. }
  assert (Hlt : mn < mx).
  { apply Qnot_le_lt. intros C.
    assert (Z0 : mx - mn == 0) by lra.
    assert (q == 0).
    { unfold q. rewrite Z0. unfold Qdiv. ring. }
    lra. }
  assert (Hrms : 0 < rms).
  { apply Qnot_le_lt. intros C.
    assert (q * (2 * rms) <= q * 0).
    { rewrite !(Qmult_comm q). apply Qmult_le_compat_r; lra. }
    lra. }
  repeat split; try assumption.
  apply int_nonneg. lra.
Qed.

(** A spread below [2 * rms_noise] gives no bin at all. *)
Lemma bin_count_small (flux : list Q) (rms mx mn : Q) :
  Np.amax flux = Ok mx -> Np.amin flux = Ok mn ->
  0 < rms -> mx - mn < 2 * rms ->
  bin_count flux rms = Ok 0%Z.
Proof.
  intros Hmx Hmn Hrms Hs. unfold bin_count. rewrite Hmx, Hmn. simpl.
  destruct (amax_amin_bounds _ _ _ Hmx Hmn) as [Hne Hrange].
  assert (Hle : mn <= mx).
  { destruct flux as [|x0 t]; [congruence|].
    destruct (Hrange x0 (or_introl eq_refl)). lra. }
  unfold Np.divide_to_int.
  destruct (Qeq_bool (2 * rms) 0) eqn:E.
  { apply Qeq_bool_iff in E. lra. }
  f_equal.
  set (q := (mx - mn) / (2 * rms)).
  assert (Hmul : q * (2 * rms) == mx - mn) by (unfold q; field; lra).
  assert (Hq0 : 0 <= q).
  { apply Qnot_lt_le. intros C.
    assert (q * (2 * rms) < 0 * (2 * rms)) by (apply Qmult_lt_compat_r; lra). lra. }
  assert (Hq1 : q < 1).
  { apply Qnot_le_lt. intros C.
    assert (1 * (2 * rms) <= q * (2 * rms)) by (apply Qmult_le_compat_r; lra). lra. }
  rewrite int_nonneg by exact Hq0. apply floor_bounds.
  change (inject_Z 0) with 0. change (inject_Z (0 + 1)) with 1.
  split; assumption.
Qed.

(** ** The histogram and its peak (lines 275-281) *)

Lemma outer_edges_data (flux : list Q) (mx mn : Q) :
  Np.amax flux = Ok mx -> Np.amin flux = Ok mn -> mn < mx ->
  Np.outer_edges flux = (mn, mx).
Proof.
  destruct flux as [|x0 t]; simpl; [discriminate|].
  intros [= <-] [= <-] Hlt. unfold Np.outer_edges.
  destruct (Qeq_bool (fold_left Qmin t x0) (fold_left Qmax t x0)) eqn:Hq;
    [|reflexivity].
  apply Qeq_bool_iff in Hq. lra.
Qed.

Lemma bin_width_map_seq (f : nat -> Q) (n : nat) :
  (2 <= n)%nat -> bin_width (map f (seq 0 n)) = Ok (f 1%nat - f 0%nat).
Proof.
  intros Hn. unfold bin_width.
  change 1%Z with (Z.of_nat 1). change 0%Z with (Z.of_nat 0).
  rewrite !getitem_map_seq by lia. reflexivity.
Qed.

Lemma bin_width_one (x : Q) : bin_width [x] = Raise IndexError.
Proof. reflexivity. Qed.

Lemma left_edges_eq (f : nat -> Q) (n : nat) :
  Py.slice (map f (seq 0 (S n))) 0 (Py.len (map f (seq 0 (S n))) - 1)
  = map f (seq 0 n).
Proof.
  unfold Py.len. rewrite length_map, length_seq.
  replace (Z.of_nat (S n) - 1)%Z with (Z.of_nat n) by lia.
  rewrite slice_prefix by (rewrite length_map, length_seq; lia).
  rewrite firstn_map, seq_S, firstn_app, length_seq, Nat.sub_diag.
  simpl. rewrite app_nil_r, firstn_all2 by (rewrite length_seq; lia).
  reflexivity.
Qed.

Lemma peak_exists (hist : list nat) :
  hist <> [] ->
  exists p : nat,
    first_max_index hist = Ok (Z.of_nat p) /\
    nth_error hist p = Some (Np.cmax hist) /\
    forall j c, (j < p)%nat -> nth_error hist j = Some c -> c <> Np.cmax hist.
Proof.
  intros Hne. unfold first_max_index.
  set (mask := map (fun c => Nat.eqb c (Np.cmax hist)) hist).
  destruct (In_nth_error _ _ (cmax_In hist Hne)) as [k Hk].
  assert (Hmk : nth_error mask k = Some true).
  { unfold mask. rewrite nth_error_map, Hk. simpl. rewrite Nat.eqb_refl. reflexivity. }
  destruct (where_nonempty _ _ Hmk) as [pz Hpz].
  destruct (where_head _ _ Hpz) as [Hin Hleast].
  apply where_In in Hin. destruct Hin as [Hp0 Hp].
  exists (Z.to_nat pz). rewrite Z2Nat.id by lia. split; [exact Hpz|].
  unfold mask in Hp. rewrite nth_error_map in Hp.
  destruct (nth_error hist (Z.to_nat pz)) as [c|] eqn:Hc; [|discriminate].
  simpl in Hp. injection Hp as Hp. apply Nat.eqb_eq in Hp. subst c.
  split; [reflexivity|].
  intros j c Hj Hjc ->.
  assert (Hjn : In (Z.of_nat j) (Np.where_ mask)).
  { apply where_In. split; [lia|]. rewrite Nat2Z.id. unfold mask.
    rewrite nth_error_map, Hjc. simpl. rewrite Nat.eqb_refl. reflexivity. }
  apply Hleast in Hjn. lia.
Qed.

Lemma histogram_data (flux : list Q) (mx mn : Q) (N : nat) :
  Np.amax flux = Ok mx -> Np.amin flux = Ok mn -> mn < mx -> (1 <= N)%nat ->
  Np.histogram flux (Z.of_nat N)
  = Ok (map (Np.count_bin mn mx N flux) (seq 0 N), map (edge mn mx N) (seq 0 (S N))).
Proof.
  intros Hmx Hmn Hlt HN. unfold Np.histogram.
  destruct (Z.ltb_spec (Z.of_nat N) 1); [lia|].
  rewrite (outer_edges_data _ _ _ Hmx Hmn Hlt), Nat2Z.id. reflexivity.
Qed.

(** With two bins or more the first stage returns, and the record it
    returns is described by [histo_facts]. *)
Lemma build_histogram_forward (flux : list Q) (rms mx mn : Q) (N : nat) :
  Np.amax flux = Ok mx -> Np.amin flux = Ok mn ->
  bin_count flux rms = Ok (Z.of_nat N) -> (2 <= N)%nat ->
  exists h p, build_histogram flux rms = Ok h /\ histo_facts flux rms h mn mx N p.
Proof.
  intros Hmx Hmn Hbc HN.
  destruct (bin_count_pos _ _ _ _ _ Hbc ltac:(lia) Hmx Hmn) as (Hlt & Hrms & _).
  destruct (amax_amin_bounds _ _ _ Hmx Hmn) as [Hne Hrange].
  set (hist := map (Np.count_bin mn mx N flux) (seq 0 N)).
  assert (Hhne : hist <> []).
  { unfold hist. destruct N; [lia|]. simpl. discriminate. }
  destruct (peak_exists hist Hhne) as (p & Hget & Hpk & Hfirst).
  destruct (nth_error_map_seq_inv _ _ _ _ Hpk) as [HpN Hcnt].
  assert (Hpos : (1 <= Np.cmax hist)%nat).
  { destruct flux as [|x0 t]; [congruence|].
    destruct (bin_index_spec mn mx N Hlt ltac:(lia) x0 (Hrange x0 (or_introl eq_refl)))
      as (b & Hb & HbN & _).
    pose proof (count_bin_pos mn mx N (x0 :: t) x0 b (or_introl eq_refl) Hb) as Hc.
    assert (Hin : In (Np.count_bin mn mx N (x0 :: t) b) hist).
    { unfold hist. apply in_map. apply in_seq. lia. }
    apply cmax_ge in Hin. lia. }
  eexists. exists p. split.
  - unfold build_histogram. rewrite Hbc. cbn [bind].
    rewrite (histogram_data _ _ _ _ Hmx Hmn Hlt) by lia. cbn [bind fst snd].
    rewrite left_edges_eq.
    assert (Hc : bin_centres (map (edge mn mx N) (seq 0 N))
                 = Ok (map (centre mn mx N) (seq 0 N))).
    { unfold bin_centres.
      destruct (map (edge mn mx N) (seq 0 N)) eqn:Hl.
      { destruct N; [lia | discriminate]. }
      rewrite <- Hl. rewrite bin_width_map_seq by lia. cbn [bind].
      rewrite map_map. reflexivity. }
    rewrite Hc. cbn [bind]. fold hist. rewrite Hget. cbn [bind].
    rewrite getitem_map_seq by lia. cbn [bind].
    rewrite bin_width_map_seq by lia. cbn [bind]. reflexivity.
  - constructor; cbn [number_bins all_bin_edges all_hist all_bins all_number_max all_bins_max];
      try assumption; try reflexivity.
    + symmetry. exact Hcnt.
    + intros j Hj. apply (Hfirst j); [exact Hj|].
      unfold hist. apply nth_error_map_seq. lia.
    + rewrite centre_diff. unfold centre. rewrite edge_diff. reflexivity.
Qed.

(** Conversely a returned record always comes with two bins or more:
    no bin makes [np.histogram] raise, one bin makes line 278 raise. *)
Lemma build_histogram_inv (flux : list Q) (rms : Q) (h : peak_histo) :
  build_histogram flux rms = Ok h ->
  exists mn mx N p, histo_facts flux rms h mn mx N p.
Proof.
  intros H. pose proof H as H0. unfold build_histogram in H.
  apply bind_Ok in H. destruct H as (n & Hbc & H).
  destruct (bin_count_inv _ _ _ Hbc) as (mx & mn & Hmx & Hmn & _ & _).
  assert (Hn1 : (1 <= n)%Z).
  { unfold Np.histogram in H. destruct (Z.ltb_spec n 1); [discriminate | lia]. }
  destruct (bin_count_pos _ _ _ _ _ Hbc Hn1 Hmx Hmn) as (Hlt & Hrms & _).
  assert (Hn2 : (2 <= n)%Z).
  { destruct (Z.eq_dec n 1) as [-> | Hne]; [|lia]. exfalso.
    change 1%Z with (Z.of_nat 1) in H.
    rewrite (histogram_data _ _ _ _ Hmx Hmn Hlt) in H by lia.
    cbn [bind fst snd] in H. rewrite left_edges_eq in H.
    simpl in H. discriminate. }
  destruct (build_histogram_forward flux rms mx mn (Z.to_nat n) Hmx Hmn)
    as (h' & p & Hb & Hf); [rewrite Z2Nat.id by lia; exact Hbc | lia |].
  rewrite H0 in Hb. injection Hb as <-. eauto.
Qed.

(** ** The zero-count boundaries and the ratio (lines 285-288) *)

Lemma combine_map_seq {A B : Type} (f : nat -> A) (g : nat -> B) (s : list nat) :
  combine (map f s) (map g s) = map (fun i => (f i, g i)) s.
Proof. induction s as [|i s IH]; simpl; [reflexivity | rewrite IH; reflexivity]. Qed.

Lemma where_map_seq (t : nat -> bool) (n : nat) (z : Z) :
  In z (Np.where_ (map t (seq 0 n))) <->
  (0 <= z < Z.of_nat n)%Z /\ t (Z.to_nat z) = true.
Proof.
  rewrite where_In. split.
  - intros [Hz Hn]. apply nth_error_map_seq_inv in Hn. destruct Hn as [Hlt Ht].
    split; [lia | congruence].
  - intros [Hz Ht]. split; [lia|]. rewrite nth_error_map_seq by lia. congruence.
Qed.

Lemma measure_asymmetry_spec (flux : list Q) (rms : Q) (h : peak_histo)
      (mn mx : Q) (N p : nat) :
  histo_facts flux rms h mn mx N p ->
  exists a, measure_asymmetry h = Ok a /\ asym_facts h a N p.
Proof.
  intros F. destruct F.
  pose proof (centre_le mn mx N hf_lt0 ltac:(lia)) as Cle.
  pose proof (centre_inj mn mx N hf_lt0 ltac:(lia)) as Cinj.
  set (cnt := Np.count_bin mn mx N flux) in *.
  set (ctr := centre mn mx N) in *.
  assert (Hp1 : (1 <= cnt p)%nat) by lia.
  (* the two masks, bin by bin *)
  set (lt := fun i : nat =>
         ((Nat.eqb (cnt i) 0) && Qle_bool (ctr i) (all_bins_max h)
          || Qeq_bool (ctr i) (ctr 0%nat))%bool).
  set (rt := fun i : nat =>
         ((Nat.eqb (cnt i) 0) && Qle_bool (all_bins_max h) (ctr i)
          || Qeq_bool (ctr i) (ctr (N - 1)%nat))%bool).
  assert (HL : left_mask h (ctr 0%nat) = map lt (seq 0 N)).
  { unfold left_mask. rewrite hf_hist0, hf_centres0, combine_map_seq, map_map.
    reflexivity. }
  assert (HR : right_mask h (ctr (N - 1)%nat) = map rt (seq 0 N)).
  { unfold right_mask. rewrite hf_hist0, hf_centres0, combine_map_seq, map_map.
    reflexivity. }
  assert (Lt : forall i, (i < N)%nat -> lt i = true -> (i < p \/ i = 0)%nat).
  { intros i Hi T. unfold lt in T. apply orb_true_iff in T. destruct T as [T|T].
    - apply andb_true_iff in T. destruct T as [T1 T2].
      apply Nat.eqb_eq in T1. apply Qle_bool_iff in T2.
      rewrite hf_bins_max0 in T2. apply Cle in T2.
      left. destruct (Nat.eq_dec i p) as [->|]; lia.
    - apply Qeq_bool_iff in T. apply Cinj in T. right. exact T. }
  assert (Rt : forall i, (i < N)%nat -> rt i = true -> (p < i \/ i = N - 1)%nat).
  { intros i Hi T. unfold rt in T. apply orb_true_iff in T. destruct T as [T|T].
    - apply andb_true_iff in T. destruct T as [T1 T2].
      apply Nat.eqb_eq in T1. apply Qle_bool_iff in T2.
      rewrite hf_bins_max0 in T2. apply Cle in T2.
      left. destruct (Nat.eq_dec i p) as [->|]; lia.
    - apply Qeq_bool_iff in T. apply Cinj in T. right. exact T. }
  assert (L0 : In 0%Z (Np.where_ (map lt (seq 0 N)))).
  { apply where_map_seq. split; [lia|]. unfold lt. simpl (Z.to_nat 0).
    apply orb_true_iff. right. apply Qeq_bool_iff. reflexivity. }
  assert (RN : In (Z.of_nat (N - 1)) (Np.where_ (map rt (seq 0 N)))).
  { apply where_map_seq. split; [lia|]. unfold rt. rewrite Nat2Z.id.
    apply orb_true_iff. right. apply Qeq_bool_iff. reflexivity. }
  destruct (imax_returns _ _ L0) as [l Hl].
  destruct (imin_returns _ _ RN) as [r Hr].
  destruct (imax_spec _ _ Hl) as [Lin Lmax].
  destruct (imin_spec _ _ Hr) as [Rin Rmin].
  apply where_map_seq in Lin. destruct Lin as [Lr Lv].
  apply where_map_seq in Rin. destruct Rin as [Rr Rv].
  apply Lt in Lv; [|lia]. apply Rt in Rv; [|lia].
  specialize (Lmax _ L0). specialize (Rmin _ RN).
  eexists. split.
  - unfold measure_asymmetry. rewrite hf_centres0, hf_bins0.
    change 0%Z with (Z.of_nat 0).
    replace (Z.of_nat N - Z.of_nat 0 - 1)%Z with (Z.of_nat (N - 1)) by lia.
    replace (Z.of_nat N - 1)%Z with (Z.of_nat (N - 1)) by lia.
    rewrite !getitem_map_seq by lia. cbn [bind].
    fold ctr. rewrite HL, Hl. cbn [bind]. rewrite HR, Hr. cbn [bind].
    reflexivity.
  - rewrite hf_peak0.
    assert (Hd : (l < r)%Z) by lia.
    constructor; cbn [all_number_left all_number_right all_number_total
                      emission_absorption_ratio]; try lia.
    unfold np_ratio.
    replace (Z.abs (r - Z.of_nat p) + Z.abs (l - Z.of_nat p))%Z with (r - l)%Z by lia.
    replace (Z.abs (r - Z.of_nat p)) with (r - Z.of_nat p)%Z by lia.
    destruct (Z.eqb_spec (r - l) 0); [lia | reflexivity].
Qed.

Lemma boundary_ratio_bounds (l p r : Z) :
  (l <= p <= r)%Z -> (l < r)%Z ->
  0 <= inject_Z (r - p) / inject_Z (r - l) <= 1.
Proof.
  intros Hp Hlr.
  assert (D : 0 < inject_Z (r - l)).
  { change 0 with (inject_Z 0). rewrite <- Zlt_Qlt. lia. }
  assert (A : 0 <= inject_Z (r - p)).
  { change 0 with (inject_Z 0). rewrite <- Zle_Qle. lia. }
  assert (B : inject_Z (r - p) <= inject_Z (r - l)).
  { rewrite <- Zle_Qle. lia. }
  split.
  - apply Qle_shift_div_l; [exact D|]. lra.
  - apply Qle_shift_div_r; [exact D|]. lra.
Qed.

(** ** The window (lines 289-305) *)

(** The three tests of lines 289, 292 and 295 on a ratio that is a
    number: exactly one of them assigns the bounds. *)
Lemma window_bounds_cases (r c w : Q) :
  (66 # 100 <= r /\
   window_bounds (Some r) c w = Some (c - 8 * w, c + 4 * w)) \/
  (r <= 33 # 100 /\
   window_bounds (Some r) c w = Some (c - 4 * w, c + 8 * w)) \/
  ((33 # 100 < r /\ r < 66 # 100) /\
   window_bounds (Some r) c w = Some (c - 5 * w, c + 5 * w)).
Proof.
  unfold window_bounds, nan_ge, nan_le, nan_gt, nan_lt.
  destruct (Qle_bool (66 # 100) r) eqn:A; destruct (Qle_bool r (33 # 100)) eqn:B;
    destruct (Qle_bool r (66 # 100)) eqn:C; destruct (Qle_bool (33 # 100) r) eqn:D;
    cbn [negb andb];
    repeat match goal with
           | H : Qle_bool _ _ = true |- _ => apply Qle_bool_iff in H
           | H : Qle_bool ?x ?y = false |- _ =>
               assert (y < x)
                 by (apply Qnot_le_lt; intros K; apply Qle_bool_iff in K; congruence);
               clear H
           end;
    try lra;
    first [ left; split; [assumption | reflexivity]
          | right; left; split; [assumption | reflexivity]
          | right; right; split; [split; assumption | reflexivity]
          | idtac ].
Qed.

Lemma window_bounds_nan (c w : Q) : window_bounds None c w = None.
Proof. reflexivity. Qed.

Section NearPeak.

Variables (mn mx : Q) (N : nat).
Hypothesis mn_lt_mx : mn < mx.
Hypothesis N_pos : (1 <= N)%nat.

(** A bin at most four places from bin [p] has its centre inside every
    window that reaches four widths or more on both sides of centre [p]. *)
Lemma near_peak_in_range (c w a b : Q) (p i : nat) :
  c == centre mn mx N p -> w == step mn mx N -> 4 <= a -> 4 <= b ->
  (p <= i + 4)%nat -> (i <= p + 4)%nat ->
  c - a * w <= centre mn mx N i <= c + b * w.
Proof.
  intros Hc Hw Ha Hb H1 H2. pose proof (step_pos mn mx N mn_lt_mx N_pos) as Hs.
  rewrite Hc, Hw.
  assert (A4 : 4 * step mn mx N <= a * step mn mx N)
    by (apply Qmult_le_compat_r; lra).
  assert (B4 : 4 * step mn mx N <= b * step mn mx N)
    by (apply Qmult_le_compat_r; lra).
  destruct (Nat.le_ge_cases i p) as [Hip | Hip].
  - replace p with (i + (p - i))%nat at 1 2 by lia.
    rewrite (centre_plus mn mx N i (p - i)).
    assert (K : inject_Z (Z.of_nat (p - i)) * step mn mx N <= 4 * step mn mx N).
    { apply Qmult_le_compat_r; [|lra].
      change 4 with (inject_Z 4). rewrite <- Zle_Qle. lia. }
    assert (K0 : 0 <= inject_Z (Z.of_nat (p - i)) * step mn mx N).
    { apply Qmult_le_0_compat; [|lra].
      change 0 with (inject_Z 0). rewrite <- Zle_Qle. lia. }
    lra.
  - replace i with (p + (i - p))%nat by lia.
    rewrite (centre_plus mn mx N p (i - p)).
    assert (K : inject_Z (Z.of_nat (i - p)) * step mn mx N <= 4 * step mn mx N).
    { apply Qmult_le_compat_r; [|lra].
      change 4 with (inject_Z 4). rewrite <- Zle_Qle. lia. }
    assert (K0 : 0 <= inject_Z (Z.of_nat (i - p)) * step mn mx N).
    { apply Qmult_le_0_compat; [|lra].
      change 0 with (inject_Z 0). rewrite <- Zle_Qle. lia. }
    lra.
Qed.

(** The samples of bin [p] lie within half a width of its centre. *)
Lemma peak_bin_in_range (c w a b : Q) (p : nat) (x : Q) :
  c == centre mn mx N p -> w == step mn mx N -> 4 <= a -> 4 <= b ->
  edge mn mx N p <= x <= edge mn mx N (S p) ->
  c - a * w <= x <= c + b * w.
Proof.
  intros Hc Hw Ha Hb [Hl Hu]. pose proof (step_pos mn mx N mn_lt_mx N_pos) as Hs.
  rewrite Hc, Hw, centre_eq.
  assert (A4 : 4 * step mn mx N <= a * step mn mx N)
    by (apply Qmult_le_compat_r; lra).
  assert (B4 : 4 * step mn mx N <= b * step mn mx N)
    by (apply Qmult_le_compat_r; lra).
  unfold edge in Hl, Hu.
  rewrite Nat2Z.inj_succ in Hu. unfold Z.succ in Hu. rewrite inject_Z_plus in Hu.
  change (inject_Z 1) with 1 in Hu.
  set (ip := inject_Z (Z.of_nat p) * step mn mx N) in *.
  setoid_replace ((inject_Z (Z.of_nat p) + 1) * step mn mx N)
    with (ip + step mn mx N) in Hu by (unfold ip; ring).
  setoid_replace ((inject_Z (Z.of_nat p) + (1 # 2)) * step mn mx N)
    with (ip + (1 # 2) * step mn mx N) by (unfold ip; ring).
  lra.
Qed.

End NearPeak.

Lemma sorted_snoc_max (l : list Z) (q : Z) :
  StronglySorted Z.lt (l ++ [q]) -> forall i, In i (l ++ [q]) -> (i <= q)%Z.
Proof.
  induction l as [|a l IH]; simpl; intros S i Hi.
  - destruct Hi as [<- | []]. lia.
  - inversion S as [|? ? S' F]; subst.
    destruct Hi as [<- | Hi]; [|exact (IH S' i Hi)].
    rewrite Forall_forall in F.
    assert (a < q)%Z by (apply F, in_or_app; right; left; reflexivity). lia.
Qed.

Lemma getitem_last_sorted (l : list Z) :
  StronglySorted Z.lt l -> l <> [] ->
  exists q, Py.getitem l (Py.len l - 1) = Ok q /\ In q l /\
            forall i, In i l -> (i <= q)%Z.
Proof.
  intros Hs Hne. destruct (exists_last Hne) as (l' & q & ->).
  exists q. split; [|split].
  - unfold Py.len. rewrite length_app. simpl length.
    replace (Z.of_nat (length l' + 1) - 1)%Z with (Z.of_nat (length l')) by lia.
    apply getitem_nat. rewrite nth_error_app2, Nat.sub_diag by lia. reflexivity.
  - apply in_or_app. right. left. reflexivity.
  - apply sorted_snoc_max. exact Hs.
Qed.

Lemma where_NoDup (mask : list bool) : NoDup (Np.where_ mask).
Proof.
  unfold Np.where_. generalize 0%Z.
  induction mask as [|b m IH]; intros k; simpl; [constructor|].
  destruct b; [|apply IH]. constructor; [|apply IH].
  intros C. apply where_from_In in C. lia.
Qed.

Lemma three_members (l : list Z) (z : Z) :
  NoDup l -> In z l -> In (z + 1)%Z l -> In (z + 2)%Z l -> (3 <= length l)%nat.
Proof.
  intros ND H0 H1 H2.
  assert (L : (length [z; z + 1; z + 2]%Z <= length l)%nat).
  { apply NoDup_incl_length.
    - repeat constructor; simpl; intros C; lia.
    - intros i [<- | [<- | [<- | []]]]; assumption. }
  exact L.
Qed.

(** The bounds of lines 289-297 and the selection of line 298: every
    bin at most four places from the peak is selected. *)
Lemma selection_near (flux : list Q) (rms : Q) (h : peak_histo) (a : asymmetry)
      (mn mx : Q) (N p : nat) :
  histo_facts flux rms h mn mx N p -> asym_facts h a N p ->
  exists bw lo hi test,
    bin_width (all_bins h) = Ok bw /\
    window_bounds (emission_absorption_ratio a) (all_bins_max h) bw = Some (lo, hi) /\
    select_bins (all_bins h) lo hi = Np.where_ (map test (seq 0 N)) /\
    (forall i, (i < N)%nat -> (p <= i + 4)%nat -> (i <= p + 4)%nat -> test i = true) /\
    (forall x, edge mn mx N p <= x <= edge mn mx N (S p) -> lo <= x <= hi).
Proof.
  intros F G. destruct F, G.
  assert (HN1 : (1 <= N)%nat) by lia.
  set (ctr := centre mn mx N) in *.
  set (bw := ctr 1%nat - ctr 0%nat).
  assert (Hbw : bin_width (all_bins h) = Ok bw).
  { rewrite hf_centres0. apply bin_width_map_seq. lia. }
  assert (Hbws : bw == step mn mx N) by apply centre_diff.
  assert (HB : exists A B, 4 <= A /\ 4 <= B /\
            window_bounds (emission_absorption_ratio a) (all_bins_max h) bw
            = Some (all_bins_max h - A * bw, all_bins_max h + B * bw)).
  { rewrite af_ratio0.
    destruct (window_bounds_cases
                (inject_Z (all_number_right a - Z.of_nat p)
                 / inject_Z (all_number_right a - all_number_left a))
                (all_bins_max h) bw) as [[_ E] | [[_ E] | [_ E]]].
    - exists 8, 4. repeat split; [lra | lra | exact E].
    - exists 4, 8. repeat split; [lra | lra | exact E].
    - exists 5, 5. repeat split; [lra | lra | exact E]. }
  destruct HB as (A & B & HA & HB & Hwb).
  set (lo := all_bins_max h - A * bw) in *.
  set (hi := all_bins_max h + B * bw) in *.
  exists bw, lo, hi,
    (fun i : nat => (Qle_bool lo (ctr i) && Qle_bool (ctr i) hi)%bool).
  split; [exact Hbw|]. split; [exact Hwb|]. split; [|split].
  - unfold select_bins. rewrite hf_centres0, map_map. reflexivity.
  - intros i Hi H1 H2.
    destruct (near_peak_in_range mn mx N hf_lt0 HN1 (all_bins_max h) bw A B p i
                hf_bins_max0 Hbws HA HB H1 H2) as [Hl Hu].
    apply andb_true_iff. split; apply Qle_bool_iff; assumption.
  - intros x He.
    exact (peak_bin_in_range mn mx N hf_lt0 HN1 (all_bins_max h) bw A B p x
             hf_bins_max0 Hbws HA HB He).
Qed.

Lemma select_window_spec (flux : list Q) (rms : Q) (h : peak_histo) (a : asymmetry)
      (mn mx : Q) (N p : nat) :
  histo_facts flux rms h mn mx N p -> asym_facts h a N p -> (3 <= N)%nat ->
  exists w, select_window flux h a = Ok w /\ window_facts flux h a w mn mx N p.
Proof.
  intros F G HN3.
  destruct (selection_near _ _ _ _ _ _ _ _ F G)
    as (bw & lo & hi & test & Hbw & Hwb & Hsel & Htest & Hpk).
  destruct F, G.
  assert (HN1 : (1 <= N)%nat) by lia.
  assert (Near : forall i, (i < N)%nat -> (p <= i + 4)%nat -> (i <= p + 4)%nat ->
                           In (Z.of_nat i) (select_bins (all_bins h) lo hi)).
  { intros i Hi H1 H2. rewrite Hsel. apply where_map_seq. split; [lia|].
    rewrite Nat2Z.id. apply Htest; assumption. }
  rewrite Hsel in Near.
  set (sel := Np.where_ (map test (seq 0 N))) in *.
  assert (ND : NoDup sel) by apply where_NoDup.
  assert (SS : StronglySorted Z.lt sel) by apply where_from_sorted.
  assert (Hpin : In (Z.of_nat p) sel) by (apply Near; lia).
  (* three consecutive bins around the peak, inside the histogram *)
  set (i0 := if Nat.eqb p 0 then 0%nat
             else if Nat.eqb p (N - 1) then (N - 3)%nat else (p - 1)%nat).
  assert (Hi0 : (i0 + 2 < N /\ p <= i0 + 2 /\ i0 <= p)%nat).
  { unfold i0. destruct (Nat.eqb_spec p 0); [lia|].
    destruct (Nat.eqb_spec p (N - 1)); lia. }
  assert (I0 : In (Z.of_nat i0) sel) by (apply Near; lia).
  assert (I1 : In (Z.of_nat i0 + 1)%Z sel).
  { replace (Z.of_nat i0 + 1)%Z with (Z.of_nat (i0 + 1)) by lia. apply Near; lia. }
  assert (I2 : In (Z.of_nat i0 + 2)%Z sel).
  { replace (Z.of_nat i0 + 2)%Z with (Z.of_nat (i0 + 2)) by lia. apply Near; lia. }
  pose proof (three_members sel _ ND I0 I1 I2) as H3.
  assert (Hfb : fallback (all_bins h) sel lo hi = Ok (sel, lo, hi)).
  { unfold fallback, Py.len. destruct (Z.ltb_spec (Z.of_nat (length sel)) 3); [lia|].
    reflexivity. }
  assert (Hne : sel <> []) by (intros C; rewrite C in H3; simpl in H3; lia).
  assert (Hs0 : exists s0, Py.getitem sel 0 = Ok s0).
  { clearbody sel. destruct sel as [|s0 t]; [congruence|]. exists s0. reflexivity. }
  destruct Hs0 as [s0 Hs0].
  destruct (where_head _ _ Hs0) as [S0in S0min].
  destruct (getitem_last_sorted sel SS Hne) as (sl & Hsl & Slin & Slmax).
  assert (R0 : (0 <= s0 < Z.of_nat N)%Z) by (apply where_map_seq in S0in; tauto).
  assert (Rl : (0 <= sl < Z.of_nat N)%Z) by (apply where_map_seq in Slin; tauto).
  pose proof (S0min _ Hpin). pose proof (Slmax _ Hpin).
  pose proof (S0min _ I0). pose proof (Slmax _ I2).
  eexists. split.
  - unfold select_window. rewrite Hbw. cbn [bind]. rewrite Hwb, Hsel.
    fold sel. rewrite Hfb. cbn [bind]. rewrite Hs0. cbn [bind].
    rewrite Hsl. cbn [bind]. reflexivity.
  - constructor; cbn [sel_bins_array lower_all_bins upper_all_bins sel_bins
                      sel_hist sel_flux]; try assumption; try reflexivity.
    + exists bw. split; assumption.
    + symmetry. exact Hsel.
    + exists s0, sl. repeat split; try assumption; try lia.
    + intros x Hx Hb. apply filter_In. split; [exact Hx|].
      destruct (bin_index_spec mn mx N hf_lt0 HN1 x (hf_range0 x Hx))
        as (b & Hb' & _ & He).
      assert (b = p) by lia. subst b.
      destruct (Hpk x He) as [Hl Hu].
      apply andb_true_iff. split; apply Qle_bool_iff; assumption.
Qed.

(** With exactly two bins both are selected, fewer than three: the
    fallback of lines 299-302 reads [all_bins[2]], past the end. *)
Lemma select_window_two_bins (flux : list Q) (rms : Q) (h : peak_histo)
      (a : asymmetry) (mn mx : Q) (p : nat) :
  histo_facts flux rms h mn mx 2 p -> asym_facts h a 2 p ->
  select_window flux h a = Raise IndexError.
Proof.
  intros F G.
  destruct (selection_near _ _ _ _ _ _ _ _ F G)
    as (bw & lo & hi & test & Hbw & Hwb & Hsel & Htest & _).
  destruct F, G.
  unfold select_window. rewrite Hbw. cbn [bind]. rewrite Hwb, Hsel.
  cbn [seq map]. rewrite !Htest by lia.
  rewrite hf_centres0. reflexivity.
Qed.

(** ** The whole of [cont_histo] *)

Lemma run_forward (flux : list Q) (rms : Q) (N : nat) :
  bin_count flux rms = Ok (Z.of_nat N) -> (3 <= N)%nat ->
  exists h a w mn mx p,
    run flux rms = Ok (h, a, w) /\
    histo_facts flux rms h mn mx N p /\ asym_facts h a N p /\
    window_facts flux h a w mn mx N p.
Proof.
  intros Hbc HN.
  destruct (bin_count_inv _ _ _ Hbc) as (mx & mn & Hmx & Hmn & _ & _).
  destruct (build_histogram_forward flux rms mx mn N Hmx Hmn Hbc ltac:(lia))
    as (h & p & Hh & F).
  destruct (measure_asymmetry_spec _ _ _ _ _ _ _ F) as (a & Ha & G).
  destruct (select_window_spec _ _ _ _ _ _ _ _ F G HN) as (w & Hw & W).
  exists h, a, w, mn, mx, p. split; [|split; [|split]; assumption].
  unfold run. rewrite Hh. cbn [bind]. rewrite Ha. cbn [bind]. rewrite Hw.
  reflexivity.
Qed.

Lemma run_inv (flux : list Q) (rms : Q) (h : peak_histo) (a : asymmetry) (w : window) :
  run flux rms = Ok (h, a, w) ->
  exists mn mx N p,
    (3 <= N)%nat /\
    histo_facts flux rms h mn mx N p /\ asym_facts h a N p /\
    window_facts flux h a w mn mx N p.
Proof.
  unfold run. intros H.
  apply bind_Ok in H. destruct H as (h' & Hh & H).
  apply bind_Ok in H. destruct H as (a' & Ha & H).
  apply bind_Ok in H. destruct H as (w' & Hw & H).
  injection H as -> -> ->.
  destruct (build_histogram_inv _ _ _ Hh) as (mn & mx & N & p & F).
  destruct (measure_asymmetry_spec _ _ _ _ _ _ _ F) as (a' & Ha' & G).
  rewrite Ha in Ha'. injection Ha' as <-.
  assert (HN : (3 <= N)%nat).
  { pose proof (hf_N _ _ _ _ _ _ _ F) as H2.
    destruct (Nat.eq_dec N 2) as [-> | Hne]; [|lia].
    rewrite (select_window_two_bins _ _ _ _ _ _ _ F G) in Hw. discriminate. }
  destruct (select_window_spec _ _ _ _ _ _ _ _ F G HN) as (w' & Hw' & W).
  rewrite Hw in Hw'. injection Hw' as <-.
  exists mn, mx, N, p. split; [|split; [|split]]; assumption.
Qed.

Lemma run_few_bins (flux : list Q) (rms : Q) (n : Z) :
  bin_count flux rms = Ok n -> (n <= 2)%Z ->
  run flux rms = Raise (if (n <? 1)%Z then ValueError else IndexError).
Proof.
  intros Hbc Hn.
  destruct (bin_count_inv _ _ _ Hbc) as (mx & mn & Hmx & Hmn & _ & _).
  destruct (Z.ltb_spec n 1) as [H0 | H1].
  - unfold run, build_histogram. rewrite Hbc. cbn [bind].
    unfold Np.histogram. destruct (Z.ltb_spec n 1); [reflexivity | lia].
  - destruct (bin_count_pos _ _ _ _ _ Hbc H1 Hmx Hmn) as (Hlt & Hrms & _).
    destruct (Z.eq_dec n 1) as [-> | Hne].
    + unfold run, build_histogram. rewrite Hbc. cbn [bind].
      change 1%Z with (Z.of_nat 1).
      rewrite (histogram_data _ _ _ _ Hmx Hmn Hlt) by lia.
      cbn [bind fst snd]. rewrite left_edges_eq. reflexivity.
    + assert (n = Z.of_nat 2) by lia. subst n.
      destruct (build_histogram_forward flux rms mx mn 2 Hmx Hmn Hbc ltac:(lia))
        as (h & p & Hh & F).
      destruct (measure_asymmetry_spec _ _ _ _ _ _ _ F) as (a & Ha & G).
      unfold run. rewrite Hh. cbn [bind]. rewrite Ha. cbn [bind].
      rewrite (select_window_two_bins _ _ _ _ _ _ _ F G). reflexivity.
Qed.

Lemma run_count_raises (flux : list Q) (rms : Q) (e : exn) :
  bin_count flux rms = Raise e -> run flux rms = Raise e.
Proof.
  intros H. unfold run, build_histogram. rewrite H. reflexivity.
Qed.

(** [cont_histo] returns exactly when line 275 counts three bins or more. *)
Lemma run_returns_iff (flux : list Q) (rms : Q) :
  returns (run flux rms) <->
  exists n, bin_count flux rms = Ok n /\ (3 <= n)%Z.
Proof.
  split.
  - intros [[[h a] w] H]. destruct (run_inv _ _ _ _ _ H) as (mn & mx & N & p & HN & F & _).
    exists (Z.of_nat N). split; [exact (hf_count _ _ _ _ _ _ _ F) | lia].
  - intros (n & Hbc & Hn).
    destruct (run_forward flux rms (Z.to_nat n)) as (h & a & w & _ & _ & _ & H & _);
      [rewrite Z2Nat.id by lia; exact Hbc | lia |].
    eexists. exact H.
Qed.

Lemma cont_histo_run (flux : list Q) (rms : Q) (out : histo) :
  cont_histo flux rms = Ok out <->
  exists h a w, run flux rms = Ok (h, a, w) /\
                out = {| h_all_bins := all_bins h; h_all_hist := all_hist h;
                         h_sel_bins := sel_bins w; h_sel_hist := sel_hist w;
                         h_sel_flux := sel_flux w |}.
Proof.
  unfold cont_histo. split.
  - intros H. apply bind_Ok in H. destruct H as ([[h a] w] & Hr & H).
    injection H as <-. exists h, a, w. split; [exact Hr | reflexivity].
  - intros (h & a & w & Hr & ->). rewrite Hr. reflexivity.
Qed.

Lemma cont_histo_raises (flux : list Q) (rms : Q) (e : exn) :
  cont_histo flux rms = Raise e <-> run flux rms = Raise e.
Proof.
  unfold cont_histo. destruct (run flux rms) as [[[h a] w]|e']; simpl.
  - split; discriminate.
  - split; congruence.
Qed.

(** The only exceptions of [cont_histo] are those of Python and NumPy. *)
Lemma bin_count_raises_only (flux : list Q) (rms : Q) (e : exn) :
  bin_count flux rms = Raise e -> e = ValueError \/ e = OverflowError.
Proof.
  unfold bin_count, Np.amax, Np.amin, Np.divide_to_int.
  destruct flux as [|x0 t]; simpl.
  - intros [= <-]. left. reflexivity.
  - destruct (Qeq_bool (2 * rms) 0); [|discriminate].
    destruct (Qeq_bool _ 0); intros [= <-]; [left | right]; reflexivity.
Qed.

Lemma run_raises_only (flux : list Q) (rms : Q) (e : exn) :
  run flux rms = Raise e ->
  e = ValueError \/ e = IndexError \/ e = OverflowError.
Proof.
  intros H. destruct (bin_count flux rms) as [n|e'] eqn:Hbc.
  - destruct (Z_le_gt_dec n 2) as [Hn | Hn].
    + rewrite (run_few_bins _ _ _ Hbc Hn) in H. injection H as <-.
      destruct (n <? 1)%Z; tauto.
    + assert (R : returns (run flux rms)).
      { apply run_returns_iff. exists n. split; [exact Hbc | lia]. }
      destruct R as [r R]. congruence.
  - rewrite (run_count_raises _ _ _ Hbc) in H. injection H as <-.
    destruct (bin_count_raises_only _ _ _ Hbc); tauto.
Qed.

Lemma slice_length {A : Type} (l : list A) (a b : Z) :
  (0 <= a <= b)%Z -> (b <= Py.len l)%Z -> Py.len (Py.slice l a b) = (b - a)%Z.
Proof.
  intros Hab Hb. unfold Py.len in *.
  rewrite <- (Z2Nat.id a), <- (Z2Nat.id b) by lia.
  rewrite slice_range by lia.
  rewrite length_firstn, length_skipn. lia.
Qed.

Lemma slice_nth {A : Type} (l : list A) (a b : Z) (i : nat) :
  (0 <= a <= b)%Z -> (b <= Py.len l)%Z -> (Z.of_nat i < b - a)%Z ->
  nth_error (Py.slice l a b) i = nth_error l (Z.to_nat a + i).
Proof.
  intros Hab Hb Hi. unfold Py.len in *.
  rewrite <- (Z2Nat.id a) at 1 by lia. rewrite <- (Z2Nat.id b) by lia.
  rewrite slice_range by lia.
  rewrite nth_error_firstn.
  destruct (Nat.ltb_spec i (Z.to_nat b - Z.to_nat a)); [|lia].
  apply nth_error_skipn.
Qed.

Lemma outer_edges_facts (flux : list Q) (rms : Q) (h : peak_histo)
      (mn mx : Q) (N p : nat) :
  histo_facts flux rms h mn mx N p -> Np.outer_edges flux = (mn, mx).
Proof.
  intros F. destruct F. apply outer_edges_data; assumption.
Qed.

Lemma first_max_index_facts (flux : list Q) (rms : Q) (h : peak_histo)
      (mn mx : Q) (N p : nat) :
  histo_facts flux rms h mn mx N p ->
  first_max_index (all_hist h) = Ok (Z.of_nat p).
Proof.
  intros F. destruct F.
  assert (Hne : all_hist h <> []).
  { rewrite hf_hist0. destruct N; [lia | discriminate]. }
  destruct (peak_exists _ Hne) as (p' & Hget & Hpk & Hfirst).
  rewrite Hget. f_equal. f_equal.
  rewrite hf_hist0 in Hpk. apply nth_error_map_seq_inv in Hpk.
  destruct Hpk as [Hp' Hc'].
  destruct (Nat.lt_trichotomy p p') as [L | [E | G]]; [exfalso | auto | exfalso].
  - apply (Hfirst p (Np.count_bin mn mx N flux p) L); [|exact hf_peak_count0].
    rewrite hf_hist0. apply nth_error_map_seq. lia.
  - apply (hf_peak_first0 p' G). rewrite hf_hist0. symmetry. exact Hc'.
Qed.

(** * The claims *)

(** ** C1: the window holds the peak and spans three bins or more *)



(** ** C2: the window bounds as a function of the ratio *)



(** ** C10: the windowed sample set is not empty *)

Lemma np_mean_defined (l : list Q) : l <> [] -> exists m, np_mean l = Some m.
Proof. destruct l; [congruence | intros _; eexists; reflexivity]. Qed.

Lemma insert_sorted_length (x : Q) (l : list Q) :
  length (insert_sorted x l) = S (length l).
Proof.
  induction l as [|y t IH]; simpl; [reflexivity|].
  destruct (Qle_bool x y); simpl; [reflexivity | rewrite IH; reflexivity].
Qed.

Lemma np_sort_length (l : list Q) : length (np_sort l) = length l.
Proof.
  induction l as [|x t IH]; simpl; [reflexivity|].
  rewrite insert_sorted_length, IH. reflexivity.
Qed.

Lemma slice_nonempty {A : Type} (l : list A) (a b : Z) :
  (0 <= a < b)%Z -> (b <= Py.len l)%Z -> Py.slice l a b <> [].
Proof.
  intros Hab Hb C.
  assert (L : Py.len (Py.slice l a b) = (b - a)%Z) by (apply slice_length; lia).
  rewrite C in L. unfold Py.len in L. simpl in L. lia.
Qed.

Lemma np_median_defined (l : list Q) : l <> [] -> exists m, np_median l = Some m.
Proof.
  intros Hne. unfold np_median.
  assert (Hsz : (1 <= Py.len (np_sort l))%Z).
  { unfold Py.len. rewrite np_sort_length. destruct l; [congruence | simpl; lia]. }
  set (sz := Py.len (np_sort l)) in *.
  pose proof (Z.div_mod sz 2 ltac:(lia)) as Hdm.
  pose proof (Z.mod_pos_bound sz 2 ltac:(lia)) as Hmb.
  destruct (Z.eqb_spec (sz mod 2) 1) as [Ho | He];
    apply np_mean_defined, slice_nonempty; fold sz; lia.
Qed.



(** ** C6: the ratio lies in the unit interval *)

(** The input [flux = [0, 3]], [rms_noise = 1] is valid and gives one
    bin: line 278 raises before any ratio is computed. *)
Lemma ratio_defined_on_valid_input_fails :
  valid_input [0; 3] 1 /\
  bin_count [0; 3] 1 = Ok 1%Z /\
  ratio_of [0; 3] 1 = Raise IndexError /\
  ~ ratio_defined_on_valid_input.
Proof.
  assert (V : valid_input [0; 3] 1).
  { exists 3, 0. repeat split; reflexivity. }
  assert (R : ratio_of [0; 3] 1 = Raise IndexError) by (vm_compute; reflexivity).
  split; [exact V|]. split; [vm_compute; reflexivity|]. split; [exact R|].
  intros C. destruct (C _ _ V) as (r & Hr & _). rewrite R in Hr. discriminate.
Qed.

(** C6, amended. With two bins or more (a spread of at least
    [4 * rms_noise]) the input is valid, lines 285-288 are reached, the
    divisor of line 288 is positive and the ratio is a number of
    [[0, 1]]; with fewer bins [cont_histo] raises before line 288. *)
Theorem ratio_in_unit_interval_two_bins (flux : list Q) (rms_noise : Q) (n : Z) :
  bin_count flux rms_noise = Ok n ->
  ((2 <= n)%Z ->
   valid_input flux rms_noise /\
   exists h a r,
     build_histogram flux rms_noise = Ok h /\
     measure_asymmetry h = Ok a /\
     (0 < all_number_total a)%Z /\
     emission_absorption_ratio a = Some r /\
     ratio_of flux rms_noise = Ok (Some r) /\ 0 <= r <= 1) /\
  ((n < 2)%Z -> exists e, ratio_of flux rms_noise = Raise e).
Proof.
  intros Hbc. split.
  - intros Hn.
    destruct (bin_count_inv _ _ _ Hbc) as (mx & mn & Hmx & Hmn & _ & _).
    destruct (build_histogram_forward flux rms_noise mx mn (Z.to_nat n) Hmx Hmn)
      as (h & p & Hh & F); [rewrite Z2Nat.id by lia; exact Hbc | lia |].
    destruct (measure_asymmetry_spec _ _ _ _ _ _ _ F) as (a & Ha & G).
    destruct F, G. split.
    + exists mx, mn. repeat split; assumption.
    + exists h, a. eexists. split; [exact Hh|]. split; [exact Ha|].
      split; [lia|]. split; [exact af_ratio0|]. split.
      * unfold ratio_of. rewrite Hh. cbn [bind]. rewrite Ha. cbn [bind].
        rewrite af_ratio0. reflexivity.
      * apply boundary_ratio_bounds; lia.
  - intros Hn. pose proof (run_few_bins _ _ _ Hbc ltac:(lia)) as Hrun.
    unfold ratio_of. unfold run in Hrun.
    destruct (build_histogram flux rms_noise) as [h|e] eqn:Hh; cbn [bind] in *.
    + destruct (build_histogram_inv _ _ _ Hh) as (mn & mx & N & p & F).
      pose proof (hf_count _ _ _ _ _ _ _ F) as Hc. pose proof (hf_N _ _ _ _ _ _ _ F).
      rewrite Hbc in Hc. injection Hc as Hc. lia.
    + exists e. reflexivity.
Qed.

Lemma ratio_in_unit_interval_two_bins_witness :
  valid_input [0; 4] 1 /\
  exists h a r,
    build_histogram [0; 4] 1 = Ok h /\
    measure_asymmetry h = Ok a /\
    (0 < all_number_total a)%Z /\
    emission_absorption_ratio a = Some r /\
    ratio_of [0; 4] 1 = Ok (Some r) /\ 0 <= r <= 1.
Proof.
  assert (B : bin_count [0; 4] 1 = Ok 2%Z) by (vm_compute; reflexivity).
  apply (proj1 (ratio_in_unit_interval_two_bins [0; 4] 1 2 B)). lia.
Defined.

(** ** C4: a spread below [2 * rms_noise] *)




(** ** C3: the fallback window of lines 299-302 *)

(** [flux = [0, 4]] with [rms_noise = 1] gives two bins, both selected:
    the fallback indices are [-2 .. 2], [all_bins[-2]] is read as
    [all_bins[0]] and [all_bins[2]] raises [IndexError].  On the step
    alone, with five bins and the selection [[1, 2]], index [-1] is read
    as the last bin and the step returns. *)
Lemma fallback_raises_DegenerateWindowError_fails :
  (exists h a bw lo hi,
      build_histogram [0; 4] 1 = Ok h /\ measure_asymmetry h = Ok a /\
      bin_width (all_bins h) = Ok bw /\
      window_bounds (emission_absorption_ratio a) (all_bins_max h) bw = Some (lo, hi) /\
      select_bins (all_bins h) lo hi = [0; 1]%Z /\
      Py.len (all_bins h) = 2%Z /\
      fallback (all_bins h) [0; 1]%Z lo hi = Raise IndexError) /\
  cont_histo [0; 4] 1 = Raise IndexError /\
  fallback [1; 3; 5; 7; 9] [1; 2]%Z 2 6 = Ok ([-1; 0; 1; 2; 3]%Z, 9, 7) /\
  ~ fallback_raises_DegenerateWindowError.
Proof.
  split; [|split; [|split]].
  - do 5 eexists.
    repeat match goal with |- _ /\ _ => split end; vm_compute; reflexivity.
  - vm_compute. reflexivity.
  - reflexivity.
  - intros C.
    assert (H : fallback [1; 3; 5; 7; 9] [1; 2]%Z 2 6 = Raise DegenerateWindowError).
    { apply (C _ _ _ _ 1%Z); [reflexivity | reflexivity | left; reflexivity]. }
    discriminate H.
Qed.

(** C3, amended. With fewer than three bins selected, lines 299-302
    replace the selection by the five indices
    [first - 2 .. first + 2] around the first selected index and read
    the two bounds at [first - 2] and [first + 2]; with both inside the
    histogram that is what they return.  With [first + 2] past the last
    bin the read raises Python's [IndexError]; this is what every input
    with exactly two bins does.  Neither the step nor [cont_histo] ever
    raises [DegenerateWindowError]. *)
Theorem fallback_five_bins (bins : list Q) (sel : list Z) (lower upper : Q) (s0 : Z) :
  (Py.len sel < 3)%Z -> Py.getitem sel 0 = Ok s0 ->
  (forall sel' lower' upper',
      fallback bins sel lower upper = Ok (sel', lower', upper') ->
      sel' = [s0 - 2; s0 - 1; s0; s0 + 1; s0 + 2]%Z /\
      Py.getitem bins (s0 - 2) = Ok lower' /\
      Py.getitem bins (s0 + 2) = Ok upper') /\
  ((2 <= s0)%Z -> (s0 + 2 < Py.len bins)%Z ->
   exists lower' upper',
     fallback bins sel lower upper
     = Ok ([s0 - 2; s0 - 1; s0; s0 + 1; s0 + 2]%Z, lower', upper') /\
     nth_error bins (Z.to_nat (s0 - 2)) = Some lower' /\
     nth_error bins (Z.to_nat (s0 + 2)) = Some upper') /\
  ((Py.len bins <= s0 + 2)%Z ->
   fallback bins sel lower upper = Raise IndexError) /\
  fallback bins sel lower upper <> Raise DegenerateWindowError /\
  (forall flux rms_noise,
      (bin_count flux rms_noise = Ok 2%Z ->
       cont_histo flux rms_noise = Raise IndexError) /\
      cont_histo flux rms_noise <> Raise DegenerateWindowError).
Proof.
  intros Hlen Hs0.
  assert (Hfb : fallback bins sel lower upper
                = (lower' <- Py.getitem bins (s0 - 2) ;;
                   upper' <- Py.getitem bins (s0 + 2) ;;
                   Ok ([s0 - 2; s0 - 1; s0; s0 + 1; s0 + 2]%Z, lower', upper'))).
  { unfold fallback. destruct (Z.ltb_spec (Py.len sel) 3); [|lia].
    rewrite Hs0. reflexivity. }
  rewrite Hfb. split; [|split; [|split; [|split]]].
  - intros sel' lower' upper' H.
    apply bind_Ok in H. destruct H as (lo & Hlo & H).
    apply bind_Ok in H. destruct H as (hi & Hhi & H).
    injection H as <- <- <-. repeat split; assumption.
  - intros H2 Hin.
    assert (L : (Z.to_nat (s0 - 2) < length bins)%nat) by (unfold Py.len in Hin; lia).
    assert (U : (Z.to_nat (s0 + 2) < length bins)%nat) by (unfold Py.len in Hin; lia).
    apply nth_error_Some in L. apply nth_error_Some in U.
    destruct (nth_error bins (Z.to_nat (s0 - 2))) as [lo|] eqn:El; [|congruence].
    destruct (nth_error bins (Z.to_nat (s0 + 2))) as [hi|] eqn:Eu; [|congruence].
    exists lo, hi.
    rewrite <- (Z2Nat.id (s0 - 2)) at 1 by lia. rewrite (getitem_nat _ _ _ El).
    cbn [bind].
    rewrite <- (Z2Nat.id (s0 + 2)) at 1 by lia. rewrite (getitem_nat _ _ _ Eu).
    cbn [bind]. repeat split; reflexivity.
  - intros Hout.
    destruct (Py.getitem bins (s0 - 2)) as [lo|e] eqn:El; cbn [bind].
    + rewrite (getitem_above _ _ Hout). reflexivity.
    + rewrite (getitem_only_IndexError _ _ _ El). reflexivity.
  - intros C. apply bind_Raise in C.
    destruct C as [C | (lo & _ & C)].
    + apply getitem_only_IndexError in C. discriminate.
    + apply bind_Raise in C. destruct C as [C | (hi & _ & C)]; [|discriminate].
      apply getitem_only_IndexError in C. discriminate.
  - intros flux rms_noise. split.
    + intros Hbc. apply cont_histo_raises.
      rewrite (run_few_bins _ _ _ Hbc) by lia. reflexivity.
    + intros C. apply cont_histo_raises, run_raises_only in C.
      destruct C as [C | [C | C]]; discriminate.
Qed.

Lemma fallback_five_bins_witness :
  (exists lower' upper',
     fallback [1; 3; 5; 7; 9; 11] [2; 3]%Z 4 8
     = Ok ([2 - 2; 2 - 1; 2; 2 + 1; 2 + 2]%Z, lower', upper') /\
     nth_error [1; 3; 5; 7; 9; 11] (Z.to_nat (2 - 2)) = Some lower' /\
     nth_error [1; 3; 5; 7; 9; 11] (Z.to_nat (2 + 2)) = Some upper') /\
  fallback [1; 3] [0; 1]%Z 0 4 = Raise IndexError.
Proof.
  split.
  - apply (proj1 (proj2 (fallback_five_bins [1; 3; 5; 7; 9; 11] [2; 3]%Z 4 8 2%Z
                           eq_refl eq_refl))); reflexivity.
  - apply (proj1 (proj2 (proj2 (fallback_five_bins [1; 3] [0; 1]%Z 0 4 0%Z
                                  eq_refl eq_refl)))).
    discriminate.
Defined.

(** ** C9: the 50th percentile is the median *)

Lemma skipn_nth_cons {A : Type} (l : list A) (i : nat) (x : A) :
  nth_error l i = Some x -> skipn i l = x :: skipn (S i) l.
Proof.
  revert l. induction i as [|i IH]; intros [|y t] H; try discriminate.
  - injection H as ->. reflexivity.
  - simpl in H. apply IH in H. exact H.
Qed.

Lemma slice_one {A : Type} (l : list A) (i : nat) (x : A) :
  nth_error l i = Some x -> Py.slice l (Z.of_nat i) (Z.of_nat i + 1) = [x].
Proof.
  intros H.
  assert (Hi : (i < length l)%nat) by (apply nth_error_Some; congruence).
  replace (Z.of_nat i + 1)%Z with (Z.of_nat (S i)) by lia.
  rewrite slice_range by lia. rewrite (skipn_nth_cons _ _ _ H).
  replace (S i - i)%nat with 1%nat by lia. reflexivity.
Qed.

Lemma slice_two {A : Type} (l : list A) (i : nat) (x y : A) :
  nth_error l i = Some x -> nth_error l (S i) = Some y ->
  Py.slice l (Z.of_nat i) (Z.of_nat i + 2) = [x; y].
Proof.
  intros Hx Hy.
  assert (Hi : (S i < length l)%nat) by (apply nth_error_Some; congruence).
  replace (Z.of_nat i + 2)%Z with (Z.of_nat (S (S i))) by lia.
  rewrite slice_range by lia.
  rewrite (skipn_nth_cons _ _ _ Hx), (skipn_nth_cons _ _ _ Hy).
  replace (S (S i) - i)%nat with 2%nat by lia. reflexivity.
Qed.

Lemma nth_error_defined {A : Type} (l : list A) (i : nat) :
  (i < length l)%nat -> exists x, nth_error l i = Some x.
Proof.
  intros H. apply nth_error_Some in H.
  destruct (nth_error l i) as [x|]; [eauto | congruence].
Qed.

(** On a sorted array of odd length [2k + 1] both give element [k]. *)
Lemma percentile_50_odd (s : list Q) (k : nat) :
  length s = (2 * k + 1)%nat ->
  exists v x,
    nth_error s k = Some x /\
    (let Nx := Py.len s in
     let indices := (50 / 100) * inject_Z (Nx - 1) in
     let indices_below := Qfloor indices in
     let indices_above := Z.min (indices_below + 1) (Nx - 1) in
     let weights_above := indices - inject_Z indices_below in
     let weights_below := 1 - weights_above in
     x1 <- Py.getitem s indices_below ;;
     x2 <- Py.getitem s indices_above ;;
     Ok (x1 * weights_below + x2 * weights_above)) = Ok v /\
    v == x /\
    Py.slice s (Py.len s / 2) (Py.len s / 2 + 1) = [x] /\
    (Py.len s mod 2 = 1)%Z.
Proof.
  intros Hlen. cbv zeta. unfold Py.len. rewrite Hlen.
  destruct (nth_error_defined s k ltac:(lia)) as [x Hx].
  set (K := Z.of_nat k).
  replace (Z.of_nat (2 * k + 1) - 1)%Z with (2 * K)%Z by lia.
  assert (Hidx : 50 / 100 * inject_Z (2 * K) == inject_Z K).
  { rewrite inject_Z_mult. change (inject_Z 2) with 2. field. }
  assert (Hfl : Qfloor (50 / 100 * inject_Z (2 * K)) = K).
  { rewrite Hidx. apply Qfloor_Z. }
  rewrite Hfl.
  assert (Hab : (0 <= Z.min (K + 1) (2 * K) < Z.of_nat (length s))%Z) by lia.
  destruct (nth_error_defined s (Z.to_nat (Z.min (K + 1) (2 * K))) ltac:(lia))
    as [y Hy].
  unfold K at 1. rewrite (getitem_nat _ _ _ Hx). cbn [bind].
  rewrite <- (Z2Nat.id (Z.min (K + 1) (2 * K))) by lia.
  rewrite (getitem_nat _ _ _ Hy). cbn [bind].
  eexists. exists x. split; [exact Hx|]. split; [reflexivity|]. split; [|split].
  - rewrite Hidx. ring.
  - replace (Z.of_nat (2 * k + 1) / 2)%Z with (Z.of_nat k)
      by (apply Z.div_unique with 1%Z; lia).
    apply slice_one. exact Hx.
  - symmetry. apply Z.mod_unique with (Z.of_nat k); lia.
Qed.

(** On a sorted array of even length [2k + 2] both give the mean of
    elements [k] and [k + 1]. *)
Lemma percentile_50_even (s : list Q) (k : nat) :
  length s = (2 * k + 2)%nat ->
  exists v x y,
    nth_error s k = Some x /\ nth_error s (S k) = Some y /\
    (let Nx := Py.len s in
     let indices := (50 / 100) * inject_Z (Nx - 1) in
     let indices_below := Qfloor indices in
     let indices_above := Z.min (indices_below + 1) (Nx - 1) in
     let weights_above := indices - inject_Z indices_below in
     let weights_below := 1 - weights_above in
     x1 <- Py.getitem s indices_below ;;
     x2 <- Py.getitem s indices_above ;;
     Ok (x1 * weights_below + x2 * weights_above)) = Ok v /\
    v == (x + y) / 2 /\
    Py.slice s (Py.len s / 2 - 1) (Py.len s / 2 + 1) = [x; y] /\
    (Py.len s mod 2 = 0)%Z.
Proof.
  intros Hlen. cbv zeta. unfold Py.len. rewrite Hlen.
  destruct (nth_error_defined s k ltac:(lia)) as [x Hx].
  destruct (nth_error_defined s (S k) ltac:(lia)) as [y Hy].
  set (K := Z.of_nat k).
  replace (Z.of_nat (2 * k + 2) - 1)%Z with (2 * K + 1)%Z by lia.
  assert (Hidx : 50 / 100 * inject_Z (2 * K + 1) == inject_Z K + (1 # 2)).
  { rewrite inject_Z_plus, inject_Z_mult.
    change (inject_Z 2) with 2. change (inject_Z 1) with 1. field. }
  assert (Hfl : Qfloor (50 / 100 * inject_Z (2 * K + 1)) = K).
  { apply floor_bounds. rewrite Hidx, inject_Z_plus. change (inject_Z 1) with 1.
    split; lra. }
  rewrite Hfl.
  replace (Z.min (K + 1) (2 * K + 1)) with (Z.of_nat (S k)) by lia.
  unfold K at 1. rewrite (getitem_nat _ _ _ Hx). cbn [bind].
  rewrite (getitem_nat _ _ _ Hy). cbn [bind].
  eexists. exists x, y. split; [exact Hx|]. split; [exact Hy|].
  split; [reflexivity|]. split; [|split].
  - rewrite Hidx. field.
  - replace (Z.of_nat (2 * k + 2) / 2)%Z with (Z.of_nat k + 1)%Z
      by (apply Z.div_unique with 0%Z; lia).
    replace (Z.of_nat k + 1 - 1)%Z with (Z.of_nat k) by lia.
    replace (Z.of_nat k + 1 + 1)%Z with (Z.of_nat k + 2)%Z by lia.
    apply slice_two; assumption.
  - symmetry. apply Z.mod_unique with (Z.of_nat k + 1)%Z; lia.
Qed.

Lemma percentile_50_median (flux : list Q) :
  flux <> [] ->
  exists v m, np_percentile flux 50 = Ok v /\ np_median flux = Some m /\ v == m.
Proof.
  intros Hne.
  assert (Hlen : (1 <= length (np_sort flux))%nat).
  { rewrite np_sort_length. destruct flux; [congruence | simpl; lia]. }
  unfold np_percentile, np_median.
  change (negb (Qle_bool 0 50) || negb (Qle_bool 50 100))%bool with false.
  cbv iota zeta.
  set (s := np_sort flux) in *.
  destruct (Nat.Even_or_Odd (length s)) as [[k Hk] | [k Hk]].
  - destruct k as [|k]; [lia|].
    destruct (percentile_50_even s k ltac:(lia)) as (v & x & y & _ & _ & Hv & Hvx & Hs & Hm).
    cbv zeta in Hv. rewrite Hv, Hm, Hs. cbn [Z.eqb].
    exists v. eexists. split; [reflexivity|]. split; [reflexivity|].
    rewrite Hvx. unfold np_sum, Py.len. simpl. field.
  - destruct (percentile_50_odd s k ltac:(lia)) as (v & x & _ & Hv & Hvx & Hs & Hm).
    cbv zeta in Hv. rewrite Hv, Hm, Hs. cbn [Z.eqb Pos.eqb].
    exists v. eexists. split; [reflexivity|]. split; [reflexivity|].
    rewrite Hvx. unfold np_sum, Py.len. simpl. field.
Qed.



(** ** C7: the initial guess of the two fits *)

Section Gaussian.

Context {P : Primitives}.


(** ** C8: a fit that does not converge *)

(** [c_Gaussian] returns the centre and the width of whatever the two
    calls of [leastsq] give back. *)
Lemma c_Gaussian_returns_fits (flux : list Q) (rms_noise : Q) (out : histo) :
  cont_histo flux rms_noise = Ok out ->
  let c := fst (leastsq (windowed_guess out) (h_all_bins out) (h_all_hist out)) in
  let d := fst (leastsq (windowed_guess out) (h_sel_bins out) (h_sel_hist out)) in
  c_Gaussian flux rms_noise = Ok (p1 c, p2 c, p1 d, p2 d).
Proof.
  intros H. unfold c_Gaussian. rewrite H. reflexivity.
Qed.

Lemma c_Gaussian_raises (flux : list Q) (rms_noise : Q) (e : exn) :
  c_Gaussian flux rms_noise = Raise e <-> cont_histo flux rms_noise = Raise e.
Proof.
  unfold c_Gaussian. destruct (cont_histo flux rms_noise); simpl.
  - split; discriminate.
  - split; congruence.
Qed.

End Gaussian.





(** ** C5: the asymmetric correction of [c_sigmaclip] *)

(** C5. With [raw_mean] the mean of the whole array and
    [clipped_mean], [clipped_sigma] the mean and the standard deviation
    of the samples that [sigma_clip] keeps, [c_sigmaclip] returns
    [clipped_mean - clipped_sigma] when
    [raw_mean - clipped_mean > rms_noise],
    [clipped_mean + clipped_sigma] when
    [raw_mean - clipped_mean < - rms_noise] and [clipped_mean]
    otherwise; the noise it returns is [clipped_sigma] in the three
    cases. *)
Theorem c_sigmaclip_correction (P : Primitives) (flux : list Q)
        (rms_noise threshold : Q) :
  0 < rms_noise ->
  exists v,
    c_sigmaclip flux rms_noise threshold
    = Ok (v, np_std (sigma_clip flux threshold)) /\
    (forall raw_mean clipped_mean clipped_sigma,
        np_mean flux = Some raw_mean ->
        np_mean (sigma_clip flux threshold) = Some clipped_mean ->
        np_std (sigma_clip flux threshold) = Some clipped_sigma ->
        (rms_noise < raw_mean - clipped_mean ->
         v = Some (clipped_mean - clipped_sigma)) /\
        (raw_mean - clipped_mean < - rms_noise ->
         v = Some (clipped_mean + clipped_sigma)) /\
        (- rms_noise <= raw_mean - clipped_mean <= rms_noise ->
         v = Some clipped_mean)) /\
    (np_mean flux = None \/ np_mean (sigma_clip flux threshold) = None ->
     v = np_mean (sigma_clip flux threshold)).
Proof.
  intros Hrms. unfold c_sigmaclip.
  assert (Hf : (if (astropy_version_major >=? 1)%Z
                then Ok (sigma_clip flux threshold)
                else if (astropy_version_major <? 1)%Z
                     then Ok (sigma_clip flux threshold)
                     else Raise UnboundLocalError)
               = Ok (sigma_clip flux threshold)).
  { destruct (Z.geb_spec astropy_version_major 1); [reflexivity|].
    destruct (Z.ltb_spec astropy_version_major 1); [reflexivity | lia]. }
  rewrite Hf. cbn [bind]. eexists. split; [reflexivity|]. split.
  - intros raw_mean clipped_mean clipped_sigma Hraw Hcm Hcs.
    rewrite Hraw, Hcm, Hcs. unfold nan_gt, nan_lt, fsub, fadd.
    destruct (Qle_bool (raw_mean - clipped_mean) (1 * rms_noise)) eqn:A; cbn [negb].
    + apply Qle_bool_iff in A.
      destruct (Qle_bool (- (1) * rms_noise) (raw_mean - clipped_mean)) eqn:B;
        cbn [negb].
      * apply Qle_bool_iff in B.
        repeat split; intros; try reflexivity; exfalso; lra.
      * assert (raw_mean - clipped_mean < - (1) * rms_noise).
        { apply Qnot_le_lt. intros K. apply Qle_bool_iff in K. congruence. }
        repeat split; intros; try reflexivity; exfalso; lra.
    + assert (1 * rms_noise < raw_mean - clipped_mean).
      { apply Qnot_le_lt. intros K. apply Qle_bool_iff in K. congruence. }
      repeat split; intros; try reflexivity; exfalso; lra.
  - intros [H | H]; rewrite H.
    + destruct (np_mean (sigma_clip flux threshold)); reflexivity.
    + destruct (np_mean flux); reflexivity.
Qed.

Lemma c_sigmaclip_correction_witness :
  @c_sigmaclip Example.primitives [-1; 1; -1; 1; -1; 1; -1; 1; 20] 1 (18 # 10)
  = Ok (Some ((0 # 8) - 1), Some 1) /\
  @c_sigmaclip Example.primitives [1; -1; 1; -1; 1; -1; 1; -1; -20] 1 (18 # 10)
  = Ok (Some ((0 # 8) + 1), Some 1) /\
  @c_sigmaclip Example.primitives [0; 2] 1 (18 # 10)
  = Ok (Some (2 # 2), Some 1).
Proof.
  split; [|split].
  - destruct (c_sigmaclip_correction Example.primitives
                [-1; 1; -1; 1; -1; 1; -1; 1; 20] 1 (18 # 10))
      as (v & Hv & Hc & _); [reflexivity|].
    destruct (Hc (20 # 9) (0 # 8) 1) as (He & _ & _);
      [vm_compute; reflexivity | vm_compute; reflexivity | vm_compute; reflexivity|].
    rewrite Hv, He by reflexivity. vm_compute. reflexivity.
  - destruct (c_sigmaclip_correction Example.primitives
                [1; -1; 1; -1; 1; -1; 1; -1; -20] 1 (18 # 10))
      as (v & Hv & Hc & _); [reflexivity|].
    destruct (Hc (-20 # 9) (0 # 8) 1) as (_ & Ha & _);
      [vm_compute; reflexivity | vm_compute; reflexivity | vm_compute; reflexivity|].
    rewrite Hv, Ha by reflexivity. vm_compute. reflexivity.
  - destruct (c_sigmaclip_correction Example.primitives [0; 2] 1 (18 # 10))
      as (v & Hv & Hc & _); [reflexivity|].
    destruct (Hc (2 # 2) (2 # 2) 1) as (_ & _ & Hn);
      [vm_compute; reflexivity | vm_compute; reflexivity | vm_compute; reflexivity|].
    rewrite Hv, Hn by (split; discriminate). vm_compute. reflexivity.
Defined.

(** * Further properties of the code *)

(** ** When [cont_histo] returns, and what it raises otherwise *)

Lemma bin_count_value (flux : list Q) (rms mx mn : Q) :
  Np.amax flux = Ok mx -> Np.amin flux = Ok mn -> 0 < rms ->
  bin_count flux rms = Ok (Qfloor ((mx - mn) / (2 * rms))) /\
  0 <= (mx - mn) / (2 * rms).
Proof.
  intros Hmx Hmn Hrms.
  destruct (amax_amin_bounds _ _ _ Hmx Hmn) as [Hne Hrange].
  assert (Hle : mn <= mx).
  { destruct flux as [|x0 t]; [congruence|].
    destruct (Hrange x0 (or_introl eq_refl)). lra. }
  set (q := (mx - mn) / (2 * rms)).
  assert (Hmul : q * (2 * rms) == mx - mn) by (unfold q; field; lra).
  assert (Hq0 : 0 <= q).
  { apply Qnot_lt_le. intros C.
    assert (q * (2 * rms) < 0 * (2 * rms)) by (apply Qmult_lt_compat_r; lra). lra. }
  split; [|exact Hq0].
  unfold bin_count. rewrite Hmx, Hmn. cbn [bind]. unfold Np.divide_to_int.
  destruct (Qeq_bool (2 * rms) 0) eqn:Hz.
  { apply Qeq_bool_iff in Hz. lra. }
  fold q. rewrite int_nonneg by exact Hq0. reflexivity.
Qed.

Lemma floor_ge (q : Q) (k : Z) : (k <= Qfloor q)%Z <-> inject_Z k <= q.
Proof.
  split; intros H.
  - eapply Qle_trans; [|apply Qfloor_le]. rewrite <- Zle_Qle. exact H.
  - rewrite <- (Qfloor_Z k). apply Qfloor_resp_le. exact H.
Qed.

Lemma quotient_ge (a b : Q) (k : Q) :
  0 < b -> (k <= a / b <-> k * b <= a).
Proof.
  intros Hb.
  assert (E : a / b * b == a) by (field; lra).
  split; intros H.
  - rewrite <- E. apply Qmult_le_compat_r; lra.
  - apply Qnot_lt_le. intros C.
    assert (a / b * b < k * b) by (apply Qmult_lt_compat_r; assumption). lra.
Qed.







(** ** The histogram *)

Lemma indicator_sum (b n : nat) :
  (b < n)%nat ->
  list_sum (map (fun i => if (Z.of_nat b =? Z.of_nat i)%Z then 1%nat else 0%nat) (seq 0 n))
  = 1%nat.
Proof.
  induction n as [|n IH]; intros Hb; [lia|].
  rewrite seq_S, map_app, list_sum_app. simpl.
  destruct (Z.eqb_spec (Z.of_nat b) (Z.of_nat n)) as [E | E].
  - assert (b = n) by lia. subst b.
    assert (Z0 : list_sum (map (fun i => if (Z.of_nat n =? Z.of_nat i)%Z
                                         then 1%nat else 0%nat) (seq 0 n)) = 0%nat).
    { clear IH Hb E. 
      assert (G : forall m s, (forall i, In i s -> (i < m)%nat) ->
                  list_sum (map (fun i => if (Z.of_nat m =? Z.of_nat i)%Z
                                          then 1%nat else 0%nat) s) = 0%nat).
      { intros m s. induction s as [|i s IHs]; intros Hs; [reflexivity|].
        simpl. destruct (Z.eqb_spec (Z.of_nat m) (Z.of_nat i)) as [E|E].
        - specialize (Hs i (or_introl eq_refl)). lia.
        - apply IHs. intros j Hj. apply Hs. right. exact Hj. }
      apply G. intros i Hi. apply in_seq in Hi. lia. }
    rewrite Z0. reflexivity.
  - rewrite IH by lia. reflexivity.
Qed.

Lemma list_sum_map_add (f g : nat -> nat) (s : list nat) :
  list_sum (map (fun i => (f i + g i)%nat) s)
  = (list_sum (map f s) + list_sum (map g s))%nat.
Proof.
  induction s as [|i s IH]; simpl; [reflexivity | rewrite IH; lia].
Qed.

Lemma count_bin_total (mn mx : Q) (N : nat) (a : list Q) :
  (forall x, In x a -> exists b : nat,
        Np.bin_index mn mx N x = Z.of_nat b /\ (b < N)%nat) ->
  list_sum (map (Np.count_bin mn mx N a) (seq 0 N)) = length a.
Proof.
  induction a as [|x a IH]; intros H.
  - unfold Np.count_bin. simpl. induction (seq 0 N); simpl; auto.
  - destruct (H x (or_introl eq_refl)) as (b & Hb & HbN).
    assert (E : forall i, Np.count_bin mn mx N (x :: a) i
                = ((if (Z.of_nat b =? Z.of_nat i)%Z then 1 else 0)
                   + Np.count_bin mn mx N a i)%nat).
    { intros i. unfold Np.count_bin. simpl. rewrite Hb.
      destruct (Z.of_nat b =? Z.of_nat i)%Z; reflexivity. }
    rewrite (map_ext _ _ E), list_sum_map_add, indicator_sum by exact HbN.
    rewrite IH; [reflexivity|]. intros y Hy. apply H. right. exact Hy.
Qed.

(** Every sample is counted once: the counts of the whole histogram
    add up to the number of samples, and there is a centre per count. *)
Theorem all_hist_counts_every_sample (flux : list Q) (rms_noise : Q) (out : histo) :
  cont_histo flux rms_noise = Ok out ->
  list_sum (h_all_hist out) = length flux /\
  length (h_all_bins out) = length (h_all_hist out) /\
  exists n, bin_count flux rms_noise = Ok n /\ Py.len (h_all_hist out) = n.
Proof.
  intros H. apply cont_histo_run in H. destruct H as (h & a & w & Hr & ->).
  cbn [h_all_bins h_all_hist].
  destruct (run_inv _ _ _ _ _ Hr) as (mn & mx & N & p & HN & F & _ & _).
  destruct F. rewrite hf_hist0, hf_centres0. split; [|split].
  - apply count_bin_total. intros x Hx.
    destruct (bin_index_spec mn mx N hf_lt0 ltac:(lia) x (hf_range0 x Hx))
      as (b & Hb & HbN & _).
    exists b. split; assumption.
  - rewrite !length_map. reflexivity.
  - exists (Z.of_nat N). split; [exact hf_count0|].
    unfold Py.len. rewrite length_map, length_seq. reflexivity.
Qed.

Lemma all_hist_counts_every_sample_witness :
  exists out,
    cont_histo [0; 1; 1; 1; 2; 2; 3; 5; 10] (1 # 2) = Ok out /\
    list_sum (h_all_hist out) = 9%nat.
Proof.
  assert (R : exists out, cont_histo [0; 1; 1; 1; 2; 2; 3; 5; 10] (1 # 2) = Ok out)
    by (eexists; vm_compute; reflexivity).
  destruct R as [out R]. exists out. split; [exact R|].
  exact (proj1 (all_hist_counts_every_sample _ _ _ R)).
Defined.

(** The bins are at least [2 * rms_noise] wide, and less than a third
    wider than that once there are three of them. *)
Lemma step_bounds (flux : list Q) (rms : Q) (h : peak_histo) (mn mx : Q) (N p : nat) :
  histo_facts flux rms h mn mx N p -> (3 <= N)%nat ->
  2 * rms <= step mn mx N /\ step mn mx N < (8 # 3) * rms.
Proof.
  intros F HN. destruct F.
  destruct (bin_count_value _ _ _ _ hf_amax0 hf_amin0 hf_rms0) as [Hbc Hq0].
  set (q := (mx - mn) / (2 * rms)) in *.
  assert (Hfl : Z.of_nat N = Qfloor q) by congruence.
  pose proof (Qfloor_le q) as F1. pose proof (Qlt_floor q) as F2.
  rewrite <- Hfl in F1, F2. rewrite inject_Z_plus in F2. change (inject_Z 1) with 1 in F2.
  assert (Hmul : q * (2 * rms) == mx - mn) by (unfold q; field; lra).
  pose proof (step_N mn mx N ltac:(lia)) as HsN.
  pose proof (N_Qpos N ltac:(lia)) as HNpos.
  set (n := inject_Z (Z.of_nat N)) in *.
  assert (Hn3 : 3 <= n).
  { unfold n. change 3 with (inject_Z 3). rewrite <- Zle_Qle. lia. }
  assert (A : n * (2 * rms) <= q * (2 * rms)) by (apply Qmult_le_compat_r; lra).
  assert (B : q * (2 * rms) < (n + 1) * (2 * rms)) by (apply Qmult_lt_compat_r; lra).
  split.
  - apply (Qmult_le_r _ _ n HNpos). rewrite (Qmult_comm (step mn mx N)), HsN.
    setoid_replace (2 * rms * n) with (n * (2 * rms)) by ring. lra.
  - apply (Qmult_lt_r _ _ n HNpos). rewrite (Qmult_comm (step mn mx N)), HsN.
    assert (C : rms * 3 <= rms * n).
    { rewrite !(Qmult_comm rms). apply Qmult_le_compat_r; lra. }
    setoid_replace ((n + 1) * (2 * rms)) with (2 * (rms * n) + 2 * rms) in B by ring.
    setoid_replace ((8 # 3) * rms * n) with ((8 # 3) * (rms * n)) by ring.
    lra.
Qed.

(** ** [c_max] *)



(** ** The zero-count boundaries around the peak *)

(** The analysis of lines 285-286, shared by the statements below: each
    boundary is an index of its mask, and bounds every index of it. *)
Lemma boundary_masks (flux : list Q) (rms : Q) (h : peak_histo) (a : asymmetry)
      (mn mx : Q) (N p : nat) :
  histo_facts flux rms h mn mx N p -> measure_asymmetry h = Ok a ->
  let cnt := Np.count_bin mn mx N flux in
  let l := all_number_left a in
  let r := all_number_right a in
  (0 <= l < Z.of_nat N)%Z /\ (0 <= r < Z.of_nat N)%Z /\
  ((cnt (Z.to_nat l) = 0 /\ Z.to_nat l < p)%nat \/ Z.to_nat l = 0%nat) /\
  ((cnt (Z.to_nat r) = 0 /\ p < Z.to_nat r)%nat \/ Z.to_nat r = (N - 1)%nat) /\
  (forall i, (i < N)%nat -> (cnt i = 0 /\ i < p)%nat \/ i = 0%nat ->
             (Z.of_nat i <= l)%Z) /\
  (forall i, (i < N)%nat -> (cnt i = 0 /\ p < i)%nat \/ i = (N - 1)%nat ->
             (r <= Z.of_nat i)%Z).
Proof.
  intros F Ha. cbv zeta.
  destruct F.
  pose proof (centre_le mn mx N hf_lt0 ltac:(lia)) as Cle.
  pose proof (centre_inj mn mx N hf_lt0 ltac:(lia)) as Cinj.
  set (cnt := Np.count_bin mn mx N flux) in *.
  set (ctr := centre mn mx N) in *.
  assert (Hp1 : (1 <= cnt p)%nat) by lia.
  set (lt := fun i : nat =>
         ((Nat.eqb (cnt i) 0) && Qle_bool (ctr i) (all_bins_max h)
          || Qeq_bool (ctr i) (ctr 0%nat))%bool).
  set (rt := fun i : nat =>
         ((Nat.eqb (cnt i) 0) && Qle_bool (all_bins_max h) (ctr i)
          || Qeq_bool (ctr i) (ctr (N - 1)%nat))%bool).
  assert (HL : left_mask h (ctr 0%nat) = map lt (seq 0 N)).
  { unfold left_mask. rewrite hf_hist0, hf_centres0, combine_map_seq, map_map.
    reflexivity. }
  assert (HR : right_mask h (ctr (N - 1)%nat) = map rt (seq 0 N)).
  { unfold right_mask. rewrite hf_hist0, hf_centres0, combine_map_seq, map_map.
    reflexivity. }
  assert (Lt : forall i, (i < N)%nat ->
                         (lt i = true <-> (cnt i = 0 /\ i < p)%nat \/ i = 0%nat)).
  { intros i Hi. unfold lt. rewrite orb_true_iff, andb_true_iff, Nat.eqb_eq,
      Qeq_bool_iff, Qle_bool_iff, hf_bins_max0. split.
    - intros [[T1 T2] | T]; [left | right; apply Cinj; exact T].
      apply Cle in T2. split; [exact T1|].
      destruct (Nat.eq_dec i p) as [->|]; lia.
    - intros [[T1 T2] | ->]; [left | right; reflexivity].
      split; [exact T1|]. apply Cle. lia. }
  assert (Rt : forall i, (i < N)%nat ->
                         (rt i = true <-> (cnt i = 0 /\ p < i)%nat \/ i = (N - 1)%nat)).
  { intros i Hi. unfold rt. rewrite orb_true_iff, andb_true_iff, Nat.eqb_eq,
      Qeq_bool_iff, Qle_bool_iff, hf_bins_max0. split.
    - intros [[T1 T2] | T]; [left | right; apply Cinj; exact T].
      apply Cle in T2. split; [exact T1|].
      destruct (Nat.eq_dec i p) as [->|]; lia.
    - intros [[T1 T2] | ->]; [left | right; reflexivity].
      split; [exact T1|]. apply Cle. lia. }
  unfold measure_asymmetry in Ha. rewrite hf_centres0, hf_bins0 in Ha.
  change 0%Z with (Z.of_nat 0) in Ha.
  replace (Z.of_nat N - 1)%Z with (Z.of_nat (N - 1)) in Ha by lia.
  rewrite !getitem_map_seq in Ha by lia. cbn [bind] in Ha. fold ctr in Ha.
  rewrite HL, HR in Ha.
  apply bind_Ok in Ha. destruct Ha as (l & Hl & Ha).
  apply bind_Ok in Ha. destruct Ha as (r & Hr & Ha).
  injection Ha as <-. cbn [all_number_left all_number_right].
  destruct (imax_spec _ _ Hl) as [Lin Lmax].
  destruct (imin_spec _ _ Hr) as [Rin Rmin].
  apply where_map_seq in Lin. destruct Lin as [Lr Lv].
  apply where_map_seq in Rin. destruct Rin as [Rr Rv].
  apply Lt in Lv; [|lia]. apply Rt in Rv; [|lia].
  assert (Lall : forall i, (i < N)%nat -> lt i = true -> (Z.of_nat i <= l)%Z).
  { intros i Hi T. apply Lmax. apply where_map_seq. split; [lia|].
    rewrite Nat2Z.id. exact T. }
  assert (Rall : forall i, (i < N)%nat -> rt i = true -> (r <= Z.of_nat i)%Z).
  { intros i Hi T. apply Rmin. apply where_map_seq. split; [lia|].
    rewrite Nat2Z.id. exact T. }
  split; [exact Lr|]. split; [exact Rr|]. split; [exact Lv|]. split; [exact Rv|].
  split.
  - intros i Hi T. apply Lall; [exact Hi | apply Lt; assumption].
  - intros i Hi T. apply Rall; [exact Hi | apply Rt; assumption].
Qed.





(** ** The extent of the window *)



(** ** Means and medians stay within the samples *)

Lemma firstn_incl {A : Type} (n : nat) (l : list A) (x : A) :
  In x (firstn n l) -> In x l.
Proof.
  revert l. induction n as [|n IH]; intros [|y t]; simpl; try tauto.
  intros [E | H]; [left; exact E | right; exact (IH _ H)].
Qed.

Lemma skipn_incl {A : Type} (n : nat) (l : list A) (x : A) :
  In x (skipn n l) -> In x l.
Proof.
  revert l. induction n as [|n IH]; intros [|y t]; simpl; try tauto.
  intros H. right. exact (IH _ H).
Qed.

Lemma slice_incl {A : Type} (l : list A) (a b : Z) (x : A) :
  In x (Py.slice l a b) -> In x l.
Proof.
  unfold Py.slice. intros H. apply firstn_incl, skipn_incl in H. exact H.
Qed.

Lemma insert_sorted_In (x y : Q) (l : list Q) :
  In y (insert_sorted x l) <-> y = x \/ In y l.
Proof.
  induction l as [|z t IH]; simpl.
  - split; intros [E | []]; left; congruence.
  - destruct (Qle_bool x z); simpl; [|rewrite IH]; split; intros H;
      repeat destruct H as [H | H]; auto.
Qed.

Lemma np_sort_In (l : list Q) (y : Q) : In y (np_sort l) <-> In y l.
Proof.
  induction l as [|x t IH]; simpl; [tauto|].
  rewrite insert_sorted_In, IH. split; intros [E | H]; auto.
Qed.

Lemma np_sum_bounds (l : list Q) (lo hi : Q) :
  (forall x, In x l -> lo <= x <= hi) ->
  lo * inject_Z (Py.len l) <= np_sum l <= hi * inject_Z (Py.len l).
Proof.
  unfold Py.len, np_sum. induction l as [|x t IH]; intros H.
  - simpl. change (inject_Z 0) with 0. lra.
  - destruct (H x (or_introl eq_refl)) as [X1 X2].
    destruct (IH (fun y Hy => H y (or_intror Hy))) as [I1 I2].
    cbn [fold_right length]. rewrite Nat2Z.inj_succ. unfold Z.succ.
    rewrite inject_Z_plus. change (inject_Z 1) with 1.
    set (n := inject_Z (Z.of_nat (length t))) in *.
    setoid_replace (lo * (n + 1)) with (lo * n + lo) by ring.
    setoid_replace (hi * (n + 1)) with (hi * n + hi) by ring.
    split; lra.
Qed.

Lemma np_mean_bounds (l : list Q) (lo hi : Q) :
  l <> [] -> (forall x, In x l -> lo <= x <= hi) ->
  exists m, np_mean l = Some m /\ lo <= m <= hi.
Proof.
  intros Hne H. destruct (np_sum_bounds l lo hi H) as [S1 S2].
  assert (Hn : 0 < inject_Z (Py.len l)).
  { change 0 with (inject_Z 0). rewrite <- Zlt_Qlt. unfold Py.len.
    destruct l; [congruence | simpl; lia]. }
  destruct l as [|x t]; [congruence|].
  eexists. split; [reflexivity|]. split.
  - apply Qle_shift_div_l; assumption.
  - apply Qle_shift_div_r; assumption.
Qed.

Lemma np_median_bounds (l : list Q) (lo hi : Q) :
  l <> [] -> (forall x, In x l -> lo <= x <= hi) ->
  exists m, np_median l = Some m /\ lo <= m <= hi.
Proof.
  intros Hne H. destruct (np_median_defined l Hne) as [m Hm].
  unfold np_median in *.
  assert (Hs : forall a b x, In x (Py.slice (np_sort l) a b) -> lo <= x <= hi).
  { intros a b x Hx. apply slice_incl in Hx.
    apply (proj1 (np_sort_In _ _)) in Hx. exact (H x Hx). }
  assert (Hmean : forall s, (forall x, In x s -> lo <= x <= hi) ->
                  np_mean s = Some m -> lo <= m <= hi).
  { intros s Hin Hsm.
    destruct (np_mean_bounds s lo hi) as (m' & Hm' & Hb); [|exact Hin|].
    - intros C. rewrite C in Hsm. discriminate.
    - rewrite Hsm in Hm'. injection Hm' as <-. exact Hb. }
  exists m. split; [exact Hm|].
  destruct (Py.len (np_sort l) mod 2 =? 1)%Z;
    exact (Hmean _ (Hs _ _) Hm).
Qed.

(** What lines 289-297 leave in the two bounds, whichever branch ran:
    the peak centre minus and plus four to eight bin widths. *)
Lemma final_bounds_spec (flux : list Q) (rms : Q)
      (h : peak_histo) (a : asymmetry) (w : window) :
  run flux rms = Ok (h, a, w) ->
  exists bw,
    bin_width (all_bins h) = Ok bw /\ 0 < bw /\ bw < (8 # 3) * rms /\
    all_bins_max h - 8 * bw <= lower_all_bins w /\
    lower_all_bins w <= all_bins_max h - 4 * bw /\
    all_bins_max h + 4 * bw <= upper_all_bins w /\
    upper_all_bins w <= all_bins_max h + 8 * bw.
Proof.
  intros Hr.
  destruct (run_inv _ _ _ _ _ Hr) as (mn & mx & N & p & HN & F & G & W).
  destruct (step_bounds _ _ _ _ _ _ _ F HN) as [_ Hw83].
  destruct F, G, W.
  destruct wf_bounds0 as (bw & Hbw & Hwb).
  pose proof Hbw as Hbw'. rewrite hf_centres0, bin_width_map_seq in Hbw' by lia.
  injection Hbw' as Hbwv.
  assert (Hbws : bw == step mn mx N) by (rewrite <- Hbwv; apply centre_diff).
  pose proof (step_pos mn mx N hf_lt0 ltac:(lia)) as Hs.
  rewrite af_ratio0 in Hwb.
  exists bw. split; [exact Hbw|]. rewrite Hbws at 1 2. split; [exact Hs|].
  split; [exact Hw83|].
  assert (Hp : 0 < bw) by (rewrite Hbws; exact Hs).
  match type of Hwb with
  | window_bounds (Some ?r) ?c ?b = _ =>
      destruct (window_bounds_cases r c b) as [[_ E] | [[_ E] | [_ E]]]
  end; rewrite E in Hwb; injection Hwb as <- <-; repeat split; lra.
Qed.



(** ** The estimators built on [cont_histo] *)

Lemma c_max_returns (flux : list Q) (rms : Q) (out : histo) :
  cont_histo flux rms = Ok out -> returns (c_max flux rms).
Proof.
  intros H. pose proof H as Hout.
  apply cont_histo_run in H. destruct H as (h & a & w & Hr & ->).
  destruct (run_inv _ _ _ _ _ Hr) as (mn & mx & N & p & HN & F & _ & _).
  pose proof (first_max_index_facts _ _ _ _ _ _ _ F) as Hfirst.
  destruct F. exists (centre mn mx N p).
  unfold c_max. rewrite Hout. cbn [bind h_all_hist h_all_bins].
  rewrite Hfirst. cbn [bind]. rewrite hf_centres0. apply getitem_map_seq. exact hf_p0.
Qed.



(** ** [c_percent] *)

Lemma percentile_index_bounds (q : Q) (n : Z) :
  0 <= q -> q <= 100 -> (1 <= n)%Z ->
  let indices := (q / 100) * inject_Z (n - 1) in
  (0 <= Qfloor indices <= n - 1)%Z /\
  0 <= indices - inject_Z (Qfloor indices) /\
  indices - inject_Z (Qfloor indices) <= 1.
Proof.
  intros H0 H100 Hn. cbv zeta.
  set (m := inject_Z (n - 1)).
  assert (Hm : 0 <= m).
  { unfold m. change 0 with (inject_Z 0). rewrite <- Zle_Qle. lia. }
  set (f := q / 100).
  assert (Hf : f * 100 == q) by (unfold f; field).
  assert (Hf0 : 0 <= f) by lra. assert (Hf1 : f <= 1) by lra.
  assert (I0 : 0 <= f * m) by (apply Qmult_le_0_compat; assumption).
  assert (I1 : f * m <= 1 * m) by (apply Qmult_le_compat_r; assumption).
  pose proof (Qfloor_le (f * m)) as F1. pose proof (Qlt_floor (f * m)) as F2.
  rewrite inject_Z_plus in F2. change (inject_Z 1) with 1 in F2.
  split; [split|split].
  - change 0%Z with (Qfloor 0). apply Qfloor_resp_le. exact I0.
  - rewrite <- (Qfloor_Z (n - 1)). apply Qfloor_resp_le. fold m. lra.
  - lra.
  - lra.
Qed.

Lemma convex_bounds (x1 x2 t lo hi : Q) :
  lo <= x1 <= hi -> lo <= x2 <= hi -> 0 <= t -> t <= 1 ->
  lo <= x1 * (1 - t) + x2 * t <= hi.
Proof.
  intros [A1 A2] [B1 B2] T0 T1.
  assert (C1 : lo * (1 - t) <= x1 * (1 - t)) by (apply Qmult_le_compat_r; lra).
  assert (C2 : x1 * (1 - t) <= hi * (1 - t)) by (apply Qmult_le_compat_r; lra).
  assert (D1 : lo * t <= x2 * t) by (apply Qmult_le_compat_r; lra).
  assert (D2 : x2 * t <= hi * t) by (apply Qmult_le_compat_r; lra).
  setoid_replace (lo * (1 - t)) with (lo - lo * t) in C1 by ring.
  setoid_replace (hi * (1 - t)) with (hi - hi * t) in C2 by ring.
  split; lra.
Qed.



Lemma insert_sorted_sorted (x : Q) (l : list Q) :
  StronglySorted Qle l -> StronglySorted Qle (insert_sorted x l).
Proof.
  induction l as [|y t IH]; intros Hs; simpl.
  - repeat constructor.
  - inversion Hs as [|? ? Ht Hy]; subst.
    destruct (Qle_bool x y) eqn:E.
    + apply Qle_bool_iff in E. constructor; [exact Hs|].
      constructor; [exact E|]. rewrite Forall_forall in *.
      intros z Hz. eapply Qle_trans; [exact E | exact (Hy z Hz)].
    + assert (Hyx : y <= x).
      { apply Qlt_le_weak, Qnot_le_lt. intros K. apply Qle_bool_iff in K. congruence. }
      constructor; [exact (IH Ht)|]. rewrite Forall_forall in *.
      intros z Hz. apply insert_sorted_In in Hz.
      destruct Hz as [-> | Hz]; [exact Hyx | exact (Hy z Hz)].
Qed.

Lemma np_sort_sorted (l : list Q) : StronglySorted Qle (np_sort l).
Proof.
  induction l as [|x t IH]; simpl; [constructor | apply insert_sorted_sorted, IH].
Qed.

Lemma sorted_nth_le (s : list Q) :
  StronglySorted Qle s ->
  forall i j a b, (i <= j)%nat ->
                  nth_error s i = Some a -> nth_error s j = Some b -> a <= b.
Proof.
  induction 1 as [|x t Ht IH Hx]; intros i j a b Hij Ha Hb.
  - destruct i; discriminate.
  - destruct i as [|i], j as [|j]; simpl in *.
    + injection Ha as <-. injection Hb as <-. apply Qle_refl.
    + injection Ha as <-. rewrite Forall_forall in Hx. apply Hx.
      eapply nth_error_In. exact Hb.
    + lia.
    + apply (IH i j); [lia | assumption | assumption].
Qed.

Lemma Qmin_cases (x y : Q) : Qmin x y = x \/ Qmin x y = y.
Proof.
  unfold Qmin, GenericMinMax.gmin. destruct (x ?= y); auto.
Qed.

Lemma Qmax_cases (x y : Q) : Qmax x y = x \/ Qmax x y = y.
Proof.
  unfold Qmax, GenericMinMax.gmax. destruct (x ?= y); auto.
Qed.

Lemma fold_Qmin_In (t : list Q) : forall x, In (fold_left Qmin t x) (x :: t).
Proof.
  induction t as [|y t IH]; intros x; simpl; [left; reflexivity|].
  destruct (IH (Qmin x y)) as [E | H]; [|right; right; exact H].
  destruct (Qmin_cases x y) as [K | K]; [left | right; left]; congruence.
Qed.

Lemma fold_Qmax_In (t : list Q) : forall x, In (fold_left Qmax t x) (x :: t).
Proof.
  induction t as [|y t IH]; intros x; simpl; [left; reflexivity|].
  destruct (IH (Qmax x y)) as [E | H]; [|right; right; exact H].
  destruct (Qmax_cases x y) as [K | K]; [left | right; left]; congruence.
Qed.

(** The percentile 0 is the minimum of the array and the percentile
    100 is its maximum. *)
Theorem c_percent_endpoints (flux : list Q) (mx mn : Q) :
  Np.amax flux = Ok mx -> Np.amin flux = Ok mn ->
  exists v0 v100,
    c_percent flux 0 = Ok v0 /\ v0 == mn /\
    c_percent flux 100 = Ok v100 /\ v100 == mx.
Proof.
  intros Hmx Hmn.
  destruct (amax_amin_bounds _ _ _ Hmx Hmn) as [Hne Hrange].
  assert (Hmn_in : In mn flux).
  { destruct flux as [|x t]; [congruence|]. injection Hmn as <-. apply fold_Qmin_In. }
  assert (Hmx_in : In mx flux).
  { destruct flux as [|x t]; [congruence|]. injection Hmx as <-. apply fold_Qmax_In. }
  pose proof (np_sort_sorted flux) as Hs.
  assert (Hlen : (1 <= length (np_sort flux))%nat).
  { rewrite np_sort_length. destruct flux; [congruence | simpl; lia]. }
  set (s := np_sort flux) in *. set (n := length s) in *.
  destruct (nth_error_defined s 0 ltac:(lia)) as [a Ha].
  destruct (nth_error_defined s (n - 1) ltac:(lia)) as [b Hb].
  assert (Hfirst : forall y, In y flux -> a <= y).
  { intros y Hy. apply np_sort_In in Hy. destruct (In_nth_error _ _ Hy) as [k Hk].
    apply (sorted_nth_le s Hs 0 k); [lia | assumption | assumption]. }
  assert (Hlast : forall y, In y flux -> y <= b).
  { intros y Hy. apply np_sort_In in Hy. destruct (In_nth_error _ _ Hy) as [k Hk].
    assert (k < n)%nat by (unfold n, s; apply nth_error_Some; congruence).
    apply (sorted_nth_le s Hs k (n - 1)); [lia | assumption | assumption]. }
  assert (Ea : a == mn).
  { apply Qle_antisym; [apply Hfirst; exact Hmn_in|].
    apply Hrange, np_sort_In. eapply nth_error_In. exact Ha. }
  assert (Eb : b == mx).
  { apply Qle_antisym; [|apply Hlast; exact Hmx_in].
    apply Hrange, np_sort_In. eapply nth_error_In. exact Hb. }
  unfold c_percent, np_percentile.
  change (negb (Qle_bool 0 0) || negb (Qle_bool 0 100))%bool with false.
  change (negb (Qle_bool 0 100) || negb (Qle_bool 100 100))%bool with false.
  cbv iota zeta. fold s. unfold Py.len. fold n.
  assert (I0 : 0 / 100 * inject_Z (Z.of_nat n - 1) == inject_Z 0).
  { change (inject_Z 0) with 0. field. }
  assert (I100 : 100 / 100 * inject_Z (Z.of_nat n - 1) == inject_Z (Z.of_nat n - 1)).
  { field. }
  assert (F0 : Qfloor (0 / 100 * inject_Z (Z.of_nat n - 1)) = 0%Z).
  { rewrite I0. apply Qfloor_Z. }
  assert (F100 : Qfloor (100 / 100 * inject_Z (Z.of_nat n - 1)) = (Z.of_nat n - 1)%Z).
  { rewrite I100. apply Qfloor_Z. }
  rewrite F0, F100.
  assert (G0 : Py.getitem s 0 = Ok a) by (apply (getitem_nat s 0); exact Ha).
  assert (Gl : Py.getitem s (Z.of_nat n - 1) = Ok b).
  { replace (Z.of_nat n - 1)%Z with (Z.of_nat (n - 1)) by lia.
    apply getitem_nat. exact Hb. }
  rewrite G0. cbn [bind].
  replace (Z.min (Z.of_nat n - 1 + 1) (Z.of_nat n - 1)) with (Z.of_nat n - 1)%Z by lia.
  rewrite Gl. cbn [bind].
  assert (Ab : (0 <= Z.min (0 + 1) (Z.of_nat n - 1) < Z.of_nat n)%Z) by lia.
  destruct (nth_error_defined s (Z.to_nat (Z.min (0 + 1) (Z.of_nat n - 1)))
              ltac:(fold n; lia)) as [c Hc].
  assert (Gc : Py.getitem s (Z.min (0 + 1) (Z.of_nat n - 1)) = Ok c).
  { rewrite <- (Z2Nat.id (Z.min (0 + 1) (Z.of_nat n - 1))) by lia.
    apply getitem_nat. exact Hc. }
  rewrite Gc. cbn [bind].
  do 2 eexists. split; [reflexivity|]. split; [|split; [reflexivity|]].
  - rewrite I0, <- Ea. change (inject_Z 0) with 0. ring.
  - rewrite I100, <- Eb. ring.
Qed.

Lemma c_percent_endpoints_witness :
  exists v0 v100,
    c_percent [3; 0; 6] 0 = Ok v0 /\ v0 == 0 /\
    c_percent [3; 0; 6] 100 = Ok v100 /\ v100 == 6.
Proof.
  apply (c_percent_endpoints [3; 0; 6] 6 0); reflexivity.
Defined.

(** ** [c_KDEmax] *)

Lemma argmax_from_spec (a : list Q) :
  forall best bi i, (bi < i)%nat ->
    let r := argmax_from best bi i a in
    (r = bi /\ forall x, In x a -> x <= best) \/
    ((i <= r < i + length a)%nat /\
     exists v, nth_error a (r - i) = Some v /\ best < v /\
               (forall x, In x a -> x <= v) /\
               (forall j x, (j < r - i)%nat -> nth_error a j = Some x -> x < v)).
Proof.
  induction a as [|x t IH]; intros best bi i Hbi; cbv zeta.
  - left. split; [reflexivity | intros x []].
  - cbn [argmax_from length].
    destruct (Qle_bool x best) eqn:E.
    + apply Qle_bool_iff in E.
      destruct (IH best bi (S i) ltac:(lia)) as [[Hr Hall] | (Hr & v & Hv & Hbv & Hall & Hearly)].
      * left. split; [exact Hr|]. intros y [<- | Hy]; [exact E | exact (Hall y Hy)].
      * right. split; [lia|]. exists v.
        replace (argmax_from best bi (S i) t - i)%nat
          with (S (argmax_from best bi (S i) t - S i)) by lia.
        split; [exact Hv|]. split; [exact Hbv|]. split.
        -- intros y [<- | Hy]; [lra | exact (Hall y Hy)].
        -- intros [|j] y Hj Hy; simpl in Hy.
           ++ injection Hy as <-. lra.
           ++ apply (Hearly j y); [lia | exact Hy].
    + assert (Hlt : best < x).
      { apply Qnot_le_lt. intros K. apply Qle_bool_iff in K. congruence. }
      destruct (IH x i (S i) ltac:(lia)) as [[Hr Hall] | (Hr & v & Hv & Hbv & Hall & Hearly)].
      * right. split; [lia|]. exists x. rewrite Hr, Nat.sub_diag.
        split; [reflexivity|]. split; [exact Hlt|]. split.
        -- intros y [<- | Hy]; [apply Qle_refl | exact (Hall y Hy)].
        -- intros j y Hj. lia.
      * right. split; [lia|]. exists v.
        replace (argmax_from x i (S i) t - i)%nat
          with (S (argmax_from x i (S i) t - S i)) by lia.
        split; [exact Hv|]. split; [lra|]. split.
        -- intros y [<- | Hy]; [lra | exact (Hall y Hy)].
        -- intros [|j] y Hj Hy; simpl in Hy.
           ++ injection Hy as <-. exact Hbv.
           ++ apply (Hearly j y); [lia | exact Hy].
Qed.

(** [np.argmax] gives an index of the array, whose entry no other
    exceeds and no earlier one reaches. *)
Lemma np_argmax_spec (a : list Q) :
  a <> [] ->
  exists (k : nat) (v : Q),
    np_argmax a = Ok (Z.of_nat k) /\ nth_error a k = Some v /\
    (forall x, In x a -> x <= v) /\
    (forall j x, (j < k)%nat -> nth_error a j = Some x -> x < v).
Proof.
  destruct a as [|x t]; [congruence|]. intros _. unfold np_argmax.
  destruct (argmax_from_spec t x 0%nat 1%nat ltac:(lia))
    as [[Hr Hall] | (Hr & v & Hv & Hbv & Hall & Hearly)].
  - exists 0%nat, x. rewrite Hr. split; [reflexivity|]. split; [reflexivity|]. split.
    + intros y [<- | Hy]; [apply Qle_refl | exact (Hall y Hy)].
    + intros j y Hj. lia.
  - exists (argmax_from x 0 1 t), v. split; [reflexivity|].
    replace (argmax_from x 0 1 t) with (S (argmax_from x 0 1 t - 1)) at 1 by lia.
    split; [exact Hv|]. split.
    + intros y [<- | Hy]; [lra | exact (Hall y Hy)].
    + intros [|j] y Hj Hy; simpl in Hy.
      * injection Hy as <-. exact Hbv.
      * apply (Hearly j y); [lia | exact Hy].
Qed.



(** ** The bin centres and the samples of the window *)



Lemma filter_length_mono {A : Type} (f g : A -> bool) (l : list A) :
  (forall x, In x l -> f x = true -> g x = true) ->
  (length (filter f l) <= length (filter g l))%nat.
Proof.
  induction l as [|x t IH]; intros H; simpl; [lia|].
  assert (IH' := IH (fun y Hy => H y (or_intror Hy))).
  destruct (f x) eqn:Ef.
  - rewrite (H x (or_introl eq_refl) Ef). simpl. lia.
  - destruct (g x); simpl; lia.
Qed.


